(** * SketchGraphs: the training-run coordinator of the graph model

    A shallow embedding of [sketchgraphs_models/graph/train/__init__.py]
    and the properties its specification states about it.

    Conventions of the embedding.
    - Python integers are [Z]; list indices are [nat].
    - Python floats are binary64 numbers.  Module [B64] gives a finite one
      by the rational it denotes and an operation by its exact result
      rounded to nearest, ties to even, with gradual underflow, overflow
      and all; [_lr_schedule_binary64] is the schedule computed this way.
      [_lr_schedule] is the same body in exact arithmetic ([a / b] the
      exact quotient, [0.1 ** k] the exact power): the properties that
      name it are properties of exact rationals, up to [Qeq].
    - A raised exception is a value of [exception]; code that can raise
      lives in the [result] monad.
    - A Python [dict] whose iteration order matters is an association list
      in insertion order with unique keys; a [dict] only looked up by key
      is a [gmap]. *)

From Stdlib Require Import ZArith QArith Qminmax Qpower Qround Qabs.
From Stdlib Require Import Qreduction Floats Lia Lqa.
From Stdlib Require Import Sorting.Sorted Ascii String.
From stdpp Require Import base option list gmap strings.
From Equations Require Import Equations.

Local Open Scope Z_scope.

(** ** Python primitives *)

Module Py.

(** Values a configuration option can hold. *)
Inductive value : Type :=
| VNone
| VBool (b : bool)
| VInt (z : Z)
| VFloat (q : Q)
| VStr (s : string).

(** The exceptions the modelled code can raise. *)
Inductive exception : Type :=
| KeyError (key : value)
| IndexError
| TypeError
| ValueError (msg : string)
| ZeroDivisionError
| OverflowError
| FileNotFoundError (path : string)
| FileExistsError (path : string)
| NotADirectoryError (path : string)
| IsADirectoryError (path : string)
| RuntimeError (msg : string).

Inductive result (A : Type) : Type :=
| Ok (a : A)
| Raise (e : exception).
Arguments Ok {A} a.
Arguments Raise {A} e.

#[export] Instance result_ret : MRet result := fun _ a => Ok a.
#[export] Instance result_bind : MBind result := fun _ _ f r =>
  match r with
  | Ok a => f a
  | Raise e => Raise e
  end.

(** [a // b] on integers: floor division, [ZeroDivisionError] on a zero
    divisor.  [Z.div] rounds towards minus infinity like Python does. *)
Definition floordiv (a b : Z) : result Z :=
  if decide (b = 0) then Raise ZeroDivisionError else Ok (a / b).

(** [a / b] on integers in exact arithmetic: the quotient as a rational.
    [B64.truediv] is the division Python performs. *)
Definition truediv (a b : Z) : result Q :=
  if decide (b = 0) then Raise ZeroDivisionError
  else Ok (inject_Z a / inject_Z b)%Q.

(** [min(x, y)] keeps its first argument unless the second is strictly
    smaller. *)
Definition min (x y : Q) : Q :=
  if Qlt_le_dec y x then y else x.

(** [bisect.bisect_right(a, x)]: the loop
    [while lo < hi: mid = (lo + hi) // 2;
       if x < a[mid]: hi = mid else: lo = mid + 1]. *)
Equations? bisect_loop (a : list Z) (x : Z) (lo hi : nat) : result nat
  by wf (hi - lo)%nat lt :=
  bisect_loop a x lo hi with decide (lo < hi)%nat => {
    | right _ := Ok lo
    | left Hlt with a !! ((lo + hi) / 2)%nat => {
        | None := Raise IndexError
        | Some v with decide (x < v) => {
            | left _ := bisect_loop a x lo ((lo + hi) / 2)%nat
            | right _ := bisect_loop a x ((lo + hi) / 2 + 1)%nat hi } } }.
Proof.
  all: change (Nat.divmod (lo + hi) 1 0 1).1 with ((lo + hi) / 2)%nat;
    pose proof (Nat.div_mod_eq (lo + hi) 2);
    pose proof (Nat.mod_upper_bound (lo + hi) 2); lia.
Qed.

Definition bisect_right (a : list Z) (x : Z) : result nat :=
  bisect_loop a x 0 (length a).

(** [s[n:]] on a string. *)
Fixpoint str_drop (n : nat) (s : string) : string :=
  match n, s with
  | O, _ => s
  | S _, EmptyString => EmptyString
  | S n', String _ s' => str_drop n' s'
  end.

(** [s.startswith(p)]. *)
Fixpoint startswith (p s : string) : bool :=
  match p, s with
  | EmptyString, _ => true
  | String _ _, EmptyString => false
  | String a p', String b s' => bool_decide (a = b) && startswith p' s'
  end.

(** [s.split(sep)] for a one-character separator; [cur] holds the
    characters of the current piece, last one first. *)
Fixpoint split_go (sep : ascii) (cur : string) (s : string) : list string :=
  match s with
  | EmptyString => [String.rev cur]
  | String c s' =>
      if decide (c = sep) then String.rev cur :: split_go sep EmptyString s'
      else split_go sep (String c cur) s'
  end.
Definition split (sep : ascii) (s : string) : list string :=
  split_go sep EmptyString s.

(** [sep.join(l)]. *)
Fixpoint join (sep : string) (l : list string) : string :=
  match l with
  | [] => EmptyString
  | [x] => x
  | x :: l' => x +:+ sep +:+ join sep l'
  end.

(** Truth value of [if v:]. *)
Definition truthy (v : value) : bool :=
  match v with
  | VNone => false
  | VBool b => b
  | VInt z => negb (z =? 0)
  | VFloat q => negb (Qeq_bool q 0)
  | VStr s => negb (bool_decide (s = EmptyString))
  end.

(** [d[k]] on a dict. *)
Definition getitem {V} (d : gmap string V) (k : string) : result V :=
  match d !! k with
  | Some v => Ok v
  | None => Raise (KeyError (VStr k))
  end.

(** [d.get(k, dflt)]. *)
Definition get {V} (d : gmap string V) (k : string) (dflt : V) : V :=
  default dflt (d !! k).

(** The integer an [int]-typed option holds; another type is an error
    where the code does integer arithmetic with it. *)
Definition as_int (v : value) : result Z :=
  match v with
  | VInt z => Ok z
  | _ => Raise TypeError
  end.

(** The number a numeric option holds ([bool] is a subtype of [int]). *)
Definition as_number (v : value) : result Q :=
  match v with
  | VInt z => Ok (inject_Z z)
  | VBool b => Ok (inject_Z (Z.b2z b))
  | VFloat q => Ok q
  | _ => Raise TypeError
  end.

End Py.
Import Py.

(** ** Binary64 arithmetic *)

Module B64.

(** [2 ** e] for an integer exponent. *)
Definition pow2 (e : Z) : Q := (2 ^ e)%Q.

(** The integer nearest to [y]; of two equally near ones, the even one. *)
Definition rne (y : Q) : Z :=
  let f := Qfloor y in
  match (y - inject_Z f ?= 1 # 2)%Q with
  | Lt => f
  | Gt => f + 1
  | Eq => if Z.even f then f else f + 1
  end.

(** For [x > 0], the exponent [e] with [2 ** e <= x < 2 ** (e + 1)]. *)
Definition ilog2 (x : Q) : Z :=
  let c := Z.log2 (Qnum x) - Z.log2 (Zpos (Qden x)) in
  if Qle_bool (pow2 c) x then c else c - 1.

(** The exponent of the last place of the binary64 numbers around
    [x > 0]: 52 places below the leading one, and never below the last
    place of the subnormal numbers, [2 ** -1074]. *)
Definition ulp_exponent (x : Q) : Z := Z.max (ilog2 x) (-1022) - 52.

Definition round_pos (x : Q) : Q :=
  let u := ulp_exponent x in
  (inject_Z (rne (x / pow2 u)) * pow2 u)%Q.

(** Rounding to nearest, ties to even, onto the binary64 numbers extended
    upwards beyond the largest one; the result is a reduced fraction.  A
    number too small for the subnormal range rounds to 0. *)
Definition round (x : Q) : Q :=
  let x := Qred x in
  Qred match Qnum x with
       | Z0 => 0
       | Zpos _ => round_pos x
       | Zneg _ => - round_pos (- x)
       end%Q.

(** A rounded magnitude of [2 ** 1024] or more lies beyond the largest
    binary64 number, [(2 ** 53 - 1) * 2 ** 971]. *)
Definition overflows (r : Q) : bool := Qle_bool (pow2 1024) (Qabs r).

(** A float: a finite number, given by its value ([-0.0] and [0.0] are one
    value, as they are for [==]), or an infinity. *)
Inductive float : Type :=
| Finite (q : Q)
| Infinity (negative : bool).

(** The float a literal [0.1] denotes. *)
Definition tenth : Q := round (1 # 10).

(** [a / b] on integers: the quotient correctly rounded;
    [OverflowError] when it is too large for a float. *)
Definition truediv (a b : Z) : result Q :=
  if decide (b = 0) then Raise ZeroDivisionError
  else
    let r := round (inject_Z a / inject_Z b) in
    if overflows r then Raise OverflowError else Ok r.

(** [x ** k] for a float [x] and an integer [k >= 0]: the C library's
    [pow], taken to round correctly; [OverflowError] when the result is
    too large for a float, 0.0 when it is too small. *)
Definition pow (x : Q) (k : nat) : result Q :=
  let r := round (x ^ Z.of_nat k) in
  if overflows r then Raise OverflowError else Ok r.

(** [x * y] on finite floats; an [int] operand is converted first, which
    is exact for 1. *)
Definition mul (x y : Q) : float :=
  let r := round (x * y) in
  if overflows r then Infinity (bool_decide (Qnum r < 0)) else Finite r.

(** The value of a primitive binary64 number of the proof assistant. *)
Definition of_prim (f : PrimFloat.float) : option Q :=
  match Prim2SF f with
  | S754_zero _ => Some 0%Q
  | S754_finite s m e =>
      Some (Qred ((if s then -1 else 1) * inject_Z (Zpos m) * pow2 e))%Q
  | _ => None
  end.

End B64.

(** ** The learning-rate schedule *)

(** [_lr_schedule(epoch, warmup_epochs=5, decay_epochs=None)] as Python
    computes it.  [min(q, 1)] is the float [q] or the integer 1, which
    the product converts to 1.0. *)
Definition _lr_schedule_binary64 (epoch warmup_epochs : Z)
    (decay_epochs : option (list Z)) : result B64.float :=
  let decay_epochs := default [] decay_epochs in
  q ← B64.truediv (epoch + 1) warmup_epochs;
  let warmup_factor := Py.min q 1 in
  k ← Py.bisect_right decay_epochs epoch;
  decay_factor ← B64.pow B64.tenth k;
  mret (B64.mul warmup_factor decay_factor).

(** [_lr_schedule(epoch, warmup_epochs=5, decay_epochs=None)] in exact
    arithmetic. *)
Definition _lr_schedule (epoch warmup_epochs : Z)
    (decay_epochs : option (list Z)) : result Q :=
  let decay_epochs := default [] decay_epochs in
  q ← Py.truediv (epoch + 1) warmup_epochs;
  let warmup_factor := Py.min q 1 in
  k ← Py.bisect_right decay_epochs epoch;
  let decay_factor := ((1 # 10) ^ Z.of_nat k)%Q in
  mret (warmup_factor * decay_factor)%Q.

(** ** [os.path] on POSIX *)

Module PosixPath.

Definition sep : ascii := "/"%char.

Definition isabs (p : string) : bool := Py.startswith "/" p.

(** [posixpath.join(a, b)]. *)
Definition join (a b : string) : string :=
  if isabs b then b
  else if bool_decide (a = EmptyString) || Py.startswith "/" (String.rev a)
       then a +:+ b
       else a +:+ "/" +:+ b.

(** The component loop of [posixpath.normpath]; [new_comps] is kept
    last component first. *)
Fixpoint norm_comps (initial_slashes : nat) (new_comps comps : list string)
    : list string :=
  match comps with
  | [] => reverse new_comps
  | comp :: rest =>
      if bool_decide (comp = EmptyString) || bool_decide (comp = ".")
      then norm_comps initial_slashes new_comps rest
      else if negb (bool_decide (comp = ".."))
              || (bool_decide (initial_slashes = O)
                  && bool_decide (new_comps = []))
              || bool_decide (head new_comps = Some "..")
      then norm_comps initial_slashes (comp :: new_comps) rest
      else norm_comps initial_slashes (tail new_comps) rest
  end.

Definition normpath (path : string) : string :=
  if bool_decide (path = EmptyString) then "."
  else
    let initial_slashes :=
      if Py.startswith "/" path then
        if Py.startswith "//" path && negb (Py.startswith "///" path)
        then 2%nat else 1%nat
      else 0%nat in
    let comps := norm_comps initial_slashes [] (Py.split sep path) in
    let path := Py.join "/" comps in
    let path :=
      match initial_slashes with
      | O => path
      | 1%nat => "/" +:+ path
      | _ => "//" +:+ path
      end in
    if bool_decide (path = EmptyString) then "." else path.

(** [os.path.abspath(path)] in a process whose working directory is
    [cwd]. *)
Definition abspath (cwd path : string) : string :=
  normpath (if isabs path then path else join cwd path).

End PosixPath.

(** ** The collaborators of the coordinator *)

(** The descriptor of one participant of a distributed run.  It is an
    ordinary object, so [if dist_config:] tests that it is not [None]:
    an absent context is [None : option DistributedTrainingInfo]. *)
Record DistributedTrainingInfo : Type := {
  world_size : Z;
  local_rank : Z;
  global_rank : Z
}.

Module distributed_utils.

(** Modelled from the spec: [distributed_utils.is_leader], whose module
    is not part of the sources at hand.  "[is_leader] is true iff
    [global_rank == 0]; absent [dist_context] implies leader." *)
Definition is_leader (dist_config : option DistributedTrainingInfo) : bool :=
  match dist_config with
  | None => true
  | Some c => bool_decide (global_rank c = 0)
  end.

End distributed_utils.

(** A tensor: its shape and the bit patterns of its elements. *)
Record tensor : Type := {
  shape : list nat;
  storage : list Z
}.

#[export] Instance tensor_eq_dec : EqDecision tensor.
Proof. solve_decision. Defined.

(** The record [torch.save] wrote: the keys [model], [epoch] and
    [global_step] of a checkpoint.  [ck_model] lists the parameters in
    the order of the saved dict; its keys are unique. *)
Record checkpoint : Type := {
  ck_model : list (string * tensor);
  ck_epoch : Z;
  ck_global_step : Z
}.

Inductive file : Type :=
| FCheckpoint (c : checkpoint)
| FJson (d : gmap string Py.value).

(** The directories and the files of a file system, each under its
    absolute path; the root [/] always exists.  Symbolic links are not
    modelled. *)
Record filesystem : Type := {
  dirs : gset string;
  files : gmap string file
}.

Module os.

(** The components of the absolute path that [path] names in a process
    whose working directory is [cwd]. *)
Definition components (cwd path : string) : list string :=
  filter (λ c, c ≠ EmptyString)
         (Py.split PosixPath.sep (PosixPath.abspath cwd path)).

Definition of_components (comps : list string) : string :=
  "/" +:+ Py.join "/" comps.

(** The name under which the file system holds [path]. *)
Definition realpath (cwd path : string) : string :=
  of_components (components cwd path).

(** The directories on the way from the root to [comps], the nearest to
    the root first and the one [comps] names last. *)
Definition ancestors (comps : list string) : list string :=
  (λ n, of_components (take n comps)) <$> seq 1 (length comps).

Definition exists_ (fs : filesystem) (key : string) : bool :=
  bool_decide (key = "/") || bool_decide (key ∈ dirs fs)
  || bool_decide (is_Some (files fs !! key)).

Definition isdir (fs : filesystem) (key : string) : bool :=
  bool_decide (key = "/") || bool_decide (key ∈ dirs fs).

(** [os.makedirs(name)]: the directory and every missing directory on the
    way to it are created; [FileExistsError] when [name] exists, and
    nothing is created when a file is in the way. *)
Definition makedirs (cwd : string) (fs : filesystem) (name : string)
    : filesystem * result unit :=
  let chain := ancestors (components cwd name) in
  if exists_ fs (realpath cwd name) then (fs, Raise (FileExistsError name))
  else if bool_decide (Exists (λ a, is_Some (files fs !! a)) chain)
  then (fs, Raise (NotADirectoryError name))
  else ({| dirs := list_to_set chain ∪ dirs fs; files := files fs |}, Ok ()).

(** [with open(name, 'w') as f:] followed by the writing of [content]:
    the file is created, or replaced, in a directory that exists. *)
Definition write_file (cwd : string) (fs : filesystem) (name : string)
    (content : file) : filesystem * result unit :=
  let comps := components cwd name in
  let key := of_components comps in
  let parent := of_components (take (length comps - 1) comps) in
  if isdir fs key then (fs, Raise (IsADirectoryError name))
  else if bool_decide (is_Some (files fs !! parent))
  then (fs, Raise (NotADirectoryError name))
  else if negb (isdir fs parent) then (fs, Raise (FileNotFoundError name))
  else ({| dirs := dirs fs; files := <[key := content]> (files fs) |}, Ok ()).

End os.

Module torch.

(** [torch.load(path)]. *)
Definition load (fs : filesystem) (path : Py.value) : result checkpoint :=
  match path with
  | VStr p =>
      match files fs !! p with
      | Some (FCheckpoint c) => Ok c
      | Some (FJson _) => Raise (RuntimeError "invalid checkpoint file")
      | None => Raise (FileNotFoundError p)
      end
  | _ => Raise TypeError
  end.

Definition same_shapes (model state_dict : gmap string tensor) : Prop :=
  map_Forall (λ k t, shape <$> model !! k = Some (shape t)) state_dict.

(** [Module.load_state_dict(state_dict)] with its default [strict=True]:
    the keys must be exactly the module's and every shape must agree;
    then every parameter takes the loaded value. *)
Definition load_state_dict (model state_dict : gmap string tensor)
    : result (gmap string tensor) :=
  if decide (dom state_dict = dom model) then
    if decide (same_shapes model state_dict) then Ok state_dict
    else Raise (RuntimeError "size mismatch")
  else Raise (RuntimeError "missing or unexpected keys in state_dict").

Inductive optimizer_class : Type := SGD | Adam | Adamax | RMSprop.

(** An optimizer over one parameter group: [initial_lr] is the rate it
    was constructed with, [lr] the rate it currently applies. *)
Record optimizer : Type := {
  opt_class : optimizer_class;
  opt_params : gmap string tensor;
  initial_lr : Q;
  lr : Q
}.

(** [cls(params, lr=rate)]: each of the four classes rejects a negative
    rate, and then the base class rejects an empty list of parameters. *)
Definition make_optimizer (cls : optimizer_class)
    (params : gmap string tensor) (rate : Q) : result optimizer :=
  if Qlt_le_dec rate 0 then Raise (ValueError "Invalid learning rate")
  else if decide (params = ∅)
  then Raise (ValueError "optimizer got an empty parameter list")
  else Ok {| opt_class := cls; opt_params := params;
             initial_lr := rate; lr := rate |}.

(** [torch.optim.lr_scheduler.LambdaLR]: the optimizer it drives, the
    base rate, the multiplier function and the epoch counter.  The rates
    are kept in exact arithmetic. *)
Record LambdaLR : Type := {
  sched_opt : optimizer;
  base_lr : Q;
  lr_lambda : Z → result Q;
  last_epoch : Z
}.

(** [scheduler.step()]: the counter advances and the optimizer's rate
    becomes [base_lr * lr_lambda(last_epoch)]. *)
Definition step (s : LambdaLR) : result LambdaLR :=
  let epoch := last_epoch s + 1 in
  factor ← lr_lambda s epoch;
  mret {| sched_opt :=
            {| opt_class := opt_class (sched_opt s);
               opt_params := opt_params (sched_opt s);
               initial_lr := initial_lr (sched_opt s);
               lr := (base_lr s * factor)%Q |};
          base_lr := base_lr s;
          lr_lambda := lr_lambda s;
          last_epoch := epoch |}.

(** [LambdaLR(opt, f)]: the base rate is the optimizer's initial rate;
    the constructor takes the initial step, to epoch 0. *)
Definition make_LambdaLR (opt : optimizer) (f : Z → result Q)
    : result LambdaLR :=
  step {| sched_opt := opt; base_lr := initial_lr opt;
          lr_lambda := f; last_epoch := -1 |}.

End torch.

(** A feature mapping of the dataset: its [feature_dimensions] and the
    snapshot [state_dict()] returns. *)
Record feature_mapping : Type := {
  feature_dimensions : gmap string Z;
  fm_state_dict : gmap string Py.value
}.

(** What [train] hands to the harness it constructs. *)
Record harness_config : Type := {
  hc_model : gmap string tensor;
  hc_wrapped : bool;
  hc_opt : torch.optimizer;
  hc_node_dimensions : gmap string Z;
  hc_edge_dimensions : gmap string Z;
  hc_batch_size : Py.value;
  hc_batches_per_epoch : option Z;
  hc_tb_writer_main : option string;
  hc_tb_writer_eval : option string;
  hc_has_eval : bool;
  hc_scheduler : torch.LambdaLR;
  hc_output_dir : option string;
  hc_dist_config : option DistributedTrainingInfo;
  hc_profile_enabled : Py.value;
  hc_node_feature_mapping : option (gmap string Py.value);
  hc_edge_feature_mapping : option (gmap string Py.value);
  hc_embedding_dim : Py.value;
  hc_depth : Py.value
}.

(** The parts of the package that [train] and [run] call and that lie
    outside the coordinator: the network constructor
    ([graph_model.make_graph_model]), the harness ([GraphModelHarness]
    and its [train_epochs]) and the dataset initializer. *)
Class Collaborators : Type := {
  harness : Type;
  dataloader : Type;
  make_graph_model :
    Py.value → gmap string Z → bool → bool → option bool → option bool →
    result (gmap string tensor);
  GraphModelHarness : harness_config → dataloader → option dataloader → harness;
  train_epochs : harness → Z → Z → result (harness * (Z * Z));
  initialize_datasets :
    gmap string Py.value → option DistributedTrainingInfo →
    result (dataloader * option dataloader * option Z
            * option feature_mapping * option feature_mapping)
}.

(** ** [train] *)

Definition _opt_factories : gmap string torch.optimizer_class :=
  list_to_map [("sgd", torch.SGD); ("adam", torch.Adam);
               ("adamax", torch.Adamax); ("rms", torch.RMSprop)].

Definition _feature_dimension (mapping : option feature_mapping)
    : gmap string Z :=
  match mapping with
  | None => ∅
  | Some m => feature_dimensions m
  end.

Definition _state_dict (mapping : option feature_mapping)
    : option (gmap string Py.value) :=
  match mapping with
  | None => None
  | Some m => Some (fm_state_dict m)
  end.

(** Lines 76-80 of [train]: every key of the saved state dict loses its
    first seven characters; a later entry overwrites an earlier one that
    is cut to the same key. *)
Definition strip_module_prefix (saved : list (string * tensor))
    : gmap string tensor :=
  foldl (λ new_state_dict kv, <[Py.str_drop 7 kv.1 := kv.2]> new_state_dict)
        ∅ saved.

(** Lines 73-87: the model and the counters [train] starts from. *)
Definition train_resume (fs : filesystem) (args : gmap string Py.value)
    (model : gmap string tensor) : result (gmap string tensor * Z * Z) :=
  model_state ← Py.getitem args "model_state";
  if Py.truthy model_state then
    state ← torch.load fs model_state;
    let new_state_dict := strip_module_prefix (ck_model state) in
    model ← torch.load_state_dict model new_state_dict;
    mret (model, ck_epoch state, ck_global_step state)
  else
    mret (model, 0, 0).

(** Lines 104-107: the batch size of one participant, from the value of
    [args['batch_size']]. *)
Definition train_batch_size (total_batch_size : Py.value)
    (dist_config : option DistributedTrainingInfo) : result Py.value :=
  match dist_config with
  | Some c => total ← Py.as_int total_batch_size;
              batch_size ← Py.floordiv total (world_size c);
              mret (VInt batch_size)
  | None => mret total_batch_size
  end.

(** Lines 109-111: the optimizer and the scheduler that drives it. *)
Definition train_optimizer (args : gmap string Py.value)
    (parameters : gmap string tensor) : result torch.LambdaLR :=
  name ← Py.getitem args "optimizer";
  factory ← match name with
            | VStr s => match _opt_factories !! s with
                        | Some cls => Ok cls
                        | None => Raise (KeyError name)
                        end
            | _ => Raise (KeyError name)
            end;
  learning_rate ← Py.getitem args "learning_rate";
  rate ← Py.as_number learning_rate;
  opt ← torch.make_optimizer factory parameters (rate * 16)%Q;
  torch.make_LambdaLR opt (λ epoch, _lr_schedule epoch 5 (Some [20; 40])).

Section Train.

Context `{Collaborators}.

Definition make_model_with_arguments (feature_dimensions : gmap string Z)
    (args : gmap string Py.value) : result (gmap string tensor) :=
  hidden_size ← Py.getitem args "hidden_size";
  make_graph_model hidden_size feature_dimensions
    (negb (Py.truthy (Py.get args "disable_entity_features" (VBool false)))
     || Py.truthy (Py.get args "force_entity_categorical_features" (VBool false)))
    (negb (Py.truthy (Py.get args "disable_edge_features" (VBool false))))
    (if Py.truthy (Py.get args "disable_readin_entity" (VBool false))
     then Some false else None)
    (if Py.truthy (Py.get args "disable_readin_edge" (VBool false))
     then Some false else None).

(** Lines 67-148: everything [train] does before its loop.  The result
    is the harness and the counters the loop starts from.  Of the two
    metric writers only the directories they are opened on are kept: the
    event files they create there are not part of the model. *)
Definition train_setup (fs : filesystem)
    (node_feature_mapping edge_feature_mapping : option feature_mapping)
    (dataloader_train : dataloader) (args : gmap string Py.value)
    (output_dir : option string) (dataloader_eval : option dataloader)
    (batches_per_epoch : option Z)
    (dist_config : option DistributedTrainingInfo)
    : result (harness * Z * Z) :=
  let feature_dimensions :=
    _feature_dimension edge_feature_mapping
    ∪ _feature_dimension node_feature_mapping in
  model ← make_model_with_arguments feature_dimensions args;
  '(model, epoch, global_step) ← train_resume fs args model;
  let wrapped := bool_decide (is_Some dist_config) in
  total_batch_size ← Py.getitem args "batch_size";
  batch_size ← train_batch_size total_batch_size dist_config;
  scheduler ← train_optimizer args model;
  '(tb_writer_main, tb_writer_eval) ←
    (if distributed_utils.is_leader dist_config then
       match output_dir with
       | Some d => Ok (Some d, Some (d +:+ "/eval/"))
       | None => Raise TypeError
       end
     else Ok (None, None));
  profile ← Py.getitem args "profile";
  embedding_dim ← Py.getitem args "hidden_size";
  depth ← Py.getitem args "num_prop_rounds";
  let h := GraphModelHarness
    {| hc_model := model;
       hc_wrapped := wrapped;
       hc_opt := torch.sched_opt scheduler;
       hc_node_dimensions := _feature_dimension node_feature_mapping;
       hc_edge_dimensions := _feature_dimension edge_feature_mapping;
       hc_batch_size := batch_size;
       hc_batches_per_epoch := batches_per_epoch;
       hc_tb_writer_main := tb_writer_main;
       hc_tb_writer_eval := tb_writer_eval;
       hc_has_eval := bool_decide (is_Some dataloader_eval);
       hc_scheduler := scheduler;
       hc_output_dir := output_dir;
       hc_dist_config := dist_config;
       hc_profile_enabled := profile;
       hc_node_feature_mapping := _state_dict node_feature_mapping;
       hc_edge_feature_mapping := _state_dict edge_feature_mapping;
       hc_embedding_dim := embedding_dim;
       hc_depth := depth |}
    dataloader_train dataloader_eval in
  mret (h, epoch, global_step).

(** What is known when [train] returns: the harness (which holds the
    model [train] returns), the counters, and the arguments of every
    [train_epochs] call, first call first. *)
Record train_outcome : Type := {
  out_harness : harness;
  out_epoch : Z;
  out_global_step : Z;
  out_calls : list (Z * Z)
}.

(** Lines 150-151: [while epoch < args['num_epochs']: epoch, global_step
    = harness.train_epochs(epoch, global_step)].  [fuel] bounds the
    number of iterations; [None] means the bound was reached first. *)
Fixpoint train_loop (fuel : nat) (args : gmap string Py.value)
    (h : harness) (epoch global_step : Z) (calls : list (Z * Z))
    : option (result train_outcome) :=
  match Py.getitem args "num_epochs" ≫= Py.as_int with
  | Raise e => Some (Raise e)
  | Ok num_epochs =>
      if decide (epoch < num_epochs) then
        match fuel with
        | O => None
        | S fuel' =>
            match train_epochs h epoch global_step with
            | Raise e => Some (Raise e)
            | Ok (h', (epoch', global_step')) =>
                train_loop fuel' args h' epoch' global_step'
                           (calls ++ [(epoch, global_step)])
            end
        end
      else Some (Ok {| out_harness := h; out_epoch := epoch;
                       out_global_step := global_step;
                       out_calls := calls |})
  end.

Definition train (fuel : nat) (fs : filesystem)
    (node_feature_mapping edge_feature_mapping : option feature_mapping)
    (dataloader_train : dataloader) (args : gmap string Py.value)
    (output_dir : option string) (dataloader_eval : option dataloader)
    (batches_per_epoch : option Z)
    (dist_config : option DistributedTrainingInfo)
    : option (result train_outcome) :=
  match train_setup fs node_feature_mapping edge_feature_mapping
          dataloader_train args output_dir dataloader_eval
          batches_per_epoch dist_config with
  | Raise e => Some (Raise e)
  | Ok (h, epoch, global_step) => train_loop fuel args h epoch global_step []
  end.

End Train.

(** ** [run] *)

(** These keys are converted to absolute paths on save. *)
Definition _ARGS_PATH_KEYS : list string :=
  ["output_dir"; "dataset_train"; "dataset_auxiliary"; "dataset_test";
   "model_state"].

(** What [run] reads from the process: the working directory and the two
    readings of the clock, [time.strftime('%m%d')] and
    [time.strftime('%H%M%S')]. *)
Record environment : Type := {
  cwd : string;
  mmdd : string;
  hhmmss : string
}.

(** Lines 216-218, one iteration: [if args[key] is not None: args[key] =
    os.path.abspath(args[key])]. *)
Definition resolve_path_key (env : environment) (args : gmap string Py.value)
    (key : string) : result (gmap string Py.value) :=
  v ← Py.getitem args key;
  match v with
  | VNone => mret args
  | VStr p => mret (<[key := VStr (PosixPath.abspath (cwd env) p)]> args)
  | _ => Raise TypeError
  end.

(** Lines 216-218: the loop over the keys, as a function to its result. *)
Fixpoint resolve_paths (env : environment) (keys : list string)
    (args : gmap string Py.value) : result (gmap string Py.value) :=
  match keys with
  | [] => mret args
  | key :: keys' => args ← resolve_path_key env args key;
                    resolve_paths env keys' args
  end.

(** ['{}'.format(v)] for the values a path option holds. *)
Definition format_path (v : Py.value) : result string :=
  match v with
  | VStr s => Ok s
  | VNone => Ok "None"
  | _ => Raise TypeError
  end.

(** Lines 216-218 on the dict itself: [args] is assigned to key by key,
    so a loop that raises leaves behind the assignments it has made. *)
Fixpoint resolve_paths_state (env : environment) (keys : list string)
    (args : gmap string Py.value) : gmap string Py.value * result unit :=
  match keys with
  | [] => (args, Ok ())
  | key :: keys' =>
      match resolve_path_key env args key with
      | Ok args => resolve_paths_state env keys' args
      | Raise e => (args, Raise e)
      end
  end.

(** Lines 213-214: [np.random.seed] takes an integer of [0, 2 ** 32 - 1]
    (and [None]), [torch.manual_seed] anything [int()] converts within 64
    bits. *)
Definition set_seeds (seed : Py.value) : result unit :=
  match seed with
  | VInt z => if decide (0 ≤ z < 2 ^ 32) then Ok ()
              else Raise (ValueError "Seed must be between 0 and 2**32 - 1")
  | VBool _ => Ok ()
  | _ => Raise TypeError
  end.

(** Lines 226-236: the leader creates the output directory and writes
    [args.txt] into it.  The file system is returned also when a step
    raises. *)
Definition persist_args (env : environment) (fs : filesystem)
    (args : gmap string Py.value)
    (distributed_config : option DistributedTrainingInfo)
    : filesystem * result (option string) :=
  if distributed_utils.is_leader distributed_config then
    match Py.getitem args "output_dir" ≫= format_path with
    | Raise e => (fs, Raise e)
    | Ok root =>
        let output_dir :=
          root +:+ "/" +:+ mmdd env +:+ "/time_" +:+ hhmmss env in
        match os.makedirs (cwd env) fs output_dir with
        | (fs, Raise e) => (fs, Raise e)
        | (fs, Ok _) =>
            match os.write_file (cwd env) fs
                    (PosixPath.join output_dir "args.txt") (FJson args) with
            | (fs, Raise e) => (fs, Raise e)
            | (fs, Ok _) => (fs, Ok (Some output_dir))
            end
        end
    end
  else (fs, Ok None).

Section Run.

Context `{Collaborators}.

(** What [run] has when it calls [train]: the output directory and what
    [initialize_datasets] returned. *)
Definition startup : Type :=
  option string
  * (dataloader * option dataloader * option Z
     * option feature_mapping * option feature_mapping).

(** Lines 213-236: everything [run] does before it calls [train].  The
    [args] dict and the file system are returned as the steps have left
    them, also when one of the steps raises. *)
Definition run_startup (env : environment) (fs : filesystem)
    (args : gmap string Py.value)
    (distributed_config : option DistributedTrainingInfo)
    : gmap string Py.value * filesystem * result startup :=
  match Py.getitem args "seed" ≫= set_seeds with
  | Raise e => (args, fs, Raise e)
  | Ok _ =>
      match resolve_paths_state env _ARGS_PATH_KEYS args with
      | (args, Raise e) => (args, fs, Raise e)
      | (args, Ok _) =>
          match initialize_datasets args distributed_config with
          | Raise e => (args, fs, Raise e)
          | Ok data =>
              match persist_args env fs args distributed_config with
              | (fs, Raise e) => (args, fs, Raise e)
              | (fs, Ok output_dir) => (args, fs, Ok (output_dir, data))
              end
          end
      end
  end.

(** What is known when [run] returns: the [args] dict as its caller now
    sees it, the file system as [run] handed it to [train] (what the
    metric writers and the harness add to it is not recorded), and what
    [train] did. *)
Record run_outcome : Type := {
  run_args : gmap string Py.value;
  run_fs : filesystem;
  run_train : train_outcome
}.

Definition run (fuel : nat) (env : environment) (fs : filesystem)
    (args : gmap string Py.value)
    (distributed_config : option DistributedTrainingInfo)
    : option (result run_outcome) :=
  match run_startup env fs args distributed_config with
  | (_, _, Raise e) => Some (Raise e)
  | (args, fs, Ok (output_dir, (dl_train, dl_test, batches_per_epoch,
                                node_feature_mapping, edge_feature_mapping))) =>
      match train fuel fs node_feature_mapping edge_feature_mapping
              dl_train args output_dir dl_test batches_per_epoch
              distributed_config with
      | None => None
      | Some (Raise e) => Some (Raise e)
      | Some (Ok t) =>
          Some (Ok {| run_args := args; run_fs := fs; run_train := t |})
      end
  end.

End Run.

(** ** Vocabulary of the specification *)

(** The number of elements of [a] that are at most [x]. *)
Definition count_le (a : list Z) (x : Z) : nat :=
  length (filter (λ t, t ≤ x) a).



(** [0.1 ^ k]. *)
Definition decay (k : nat) : Q := ((1 # 10) ^ Z.of_nat k)%Q.

(** The schedule as the specification words it, on floats: the quotient,
    the power of the float 0.1 and the product are each rounded to
    binary64. *)
Definition schedule_spec_binary64 (epoch warmup_epochs : Z)
    (decay_epochs : list Z) : Q :=
  B64.round
    (Qmin (B64.round (inject_Z (epoch + 1) / inject_Z warmup_epochs)) 1
     * B64.round (B64.tenth ^ Z.of_nat (count_le decay_epochs epoch)))%Q.

(** The error taxonomy of the specification, read over the exceptions the
    code raises.  The code defines no exception class of its own: a
    configuration it cannot use surfaces as the [KeyError], [TypeError],
    [ValueError], [ZeroDivisionError] or [OverflowError] of the statement
    that reads it, a checkpoint it cannot load as the error of
    [torch.load] or [load_state_dict]. *)
Inductive error_class : Type :=
| ConfigurationError
| CheckpointLoadError
| OutputError.

Definition classify (e : Py.exception) : error_class :=
  match e with
  | KeyError _ | TypeError | ValueError _ | ZeroDivisionError | OverflowError
  | IndexError => ConfigurationError
  | FileNotFoundError _ | RuntimeError _ => CheckpointLoadError
  | FileExistsError _ | NotADirectoryError _ | IsADirectoryError _ => OutputError
  end.

(** Modelled from the spec: the checkpoint writer of the harness, which is
    not part of the sources at hand.  A checkpoint is the "persisted
    record {model_parameters, epoch, global_step, ...}" whose parameter
    names are "optionally prefixed with a fixed 7-character
    distributed-wrapper marker": [prefix] is that marker for a wrapped
    model (["module."]) and the empty string for an unwrapped one. *)
Definition save_checkpoint (prefix : string) (model : gmap string tensor)
    (epoch global_step : Z) : checkpoint :=
  {| ck_model := (λ kv, (prefix +:+ kv.1, kv.2)) <$> map_to_list model;
     ck_epoch := epoch;
     ck_global_step := global_step |}.


(** The closed set of optimizer identifiers: the keys of
    [_opt_factories], each with the class it stands for. *)
Definition optimizer_kinds : list (string * torch.optimizer_class) :=
  [("sgd", torch.SGD); ("adam", torch.Adam); ("adamax", torch.Adamax);
   ("rms", torch.RMSprop)].



(** Every [train_epochs] call returns, with the epoch advanced by
    exactly one. *)
Definition advances_epoch `{Collaborators} : Prop :=
  ∀ h epoch global_step, ∃ h' global_step',
    train_epochs h epoch global_step = Ok (h', (epoch + 1, global_step')).

(** The entry of the new state dict an entry of the saved one becomes. *)
Definition stripped (kv : string * tensor) : string * tensor :=
  (Py.str_drop 7 kv.1, kv.2).

(** What the loop of lines 216-218 makes of the value of a path option. *)
Definition resolved (env : environment) (v : Py.value) : Py.value :=
  match v with
  | VStr p => VStr (PosixPath.abspath (cwd env) p)
  | _ => v
  end.

(** ** A concrete set of collaborators *)

(** The defaults of [get_argsparser], with [dataset_train] (required)
    given. *)
Definition parser_defaults (dataset_train : string) : gmap string Py.value :=
  list_to_map
    [("description", VNone); ("output_dir", VStr "../output");
     ("dataset_train", VStr dataset_train); ("dataset_auxiliary", VNone);
     ("dataset_test", VNone); ("model_state", VNone);
     ("num_quantize_length", VInt 383); ("num_quantize_angle", VInt 127);
     ("batch_size", VInt 2048); ("learning_rate", VFloat (2 # 100000));
     ("optimizer", VStr "adam"); ("hidden_size", VInt 384);
     ("num_prop_rounds", VInt 3); ("num_epochs", VInt 60);
     ("num_workers", VInt 0); ("seed", VInt 7); ("world_size", VInt 1);
     ("profile", VBool false); ("disable_entity_features", VBool false);
     ("disable_edge_features", VBool false);
     ("disable_readin_entity", VBool false);
     ("disable_readin_edge", VBool false);
     ("force_entity_categorical_features", VBool false)].

Module Demo.

(** A network with a single parameter. *)
Definition network : gmap string tensor :=
  {[ "weight" := {| shape := [2%nat]; storage := [0; 0] |} ]}.

(** Collaborators that always succeed: the harness remembers what it
    was constructed with, and an epoch advances the epoch counter by one
    and the step counter by the number of batches per epoch. *)
#[export] Instance collaborators : Collaborators := {|
  harness := harness_config;
  dataloader := unit;
  make_graph_model := λ _ _ _ _ _ _, Ok network;
  GraphModelHarness := λ c _ _, c;
  train_epochs := λ h epoch global_step,
    Ok (h, (epoch + 1, global_step + default 1 (hc_batches_per_epoch h)));
  initialize_datasets := λ _ _, Ok (tt, None, Some 50, None, None)
|}.

(** What a single-process run with the default options hands to the
    harness, before the scheduler's first step. *)
Definition config : harness_config :=
  {| hc_model := network; hc_wrapped := false;
     hc_opt :=
       {| torch.opt_class := torch.Adam; torch.opt_params := network;
          torch.initial_lr := (2 # 100000) * 16;
          torch.lr := (2 # 100000) * 16 |};
     hc_node_dimensions := ∅; hc_edge_dimensions := ∅;
     hc_batch_size := VInt 2048; hc_batches_per_epoch := Some 50;
     hc_tb_writer_main := None; hc_tb_writer_eval := None;
     hc_has_eval := false;
     hc_scheduler :=
       {| torch.sched_opt :=
            {| torch.opt_class := torch.Adam; torch.opt_params := network;
               torch.initial_lr := (2 # 100000) * 16;
               torch.lr := (2 # 100000) * 16 |};
          torch.base_lr := (2 # 100000) * 16;
          torch.lr_lambda := λ e, _lr_schedule e 5 (Some [20; 40]);
          torch.last_epoch := -1 |};
     hc_output_dir := None; hc_dist_config := None;
     hc_profile_enabled := VBool false;
     hc_node_feature_mapping := None;
     hc_edge_feature_mapping := None;
     hc_embedding_dim := VInt 384; hc_depth := VInt 3 |}.




Definition env : environment :=
  {| cwd := "/home/user/SketchGraphs"; mmdd := "1104"; hhmmss := "153400" |}.

Definition empty_fs : filesystem := {| dirs := ∅; files := ∅ |}.

(** The parameters of [network] after some training, and a file system
    holding the checkpoint a distributed run saved of them at epoch 3,
    step 150. *)
Definition trained : gmap string tensor :=
  {[ "weight" := {| shape := [2%nat]; storage := [5; 7] |} ]}.

Definition checkpoint_fs : filesystem :=
  {| dirs := ∅;
     files := {[ "/out/model_state_3.pt" :=
                   FCheckpoint (save_checkpoint "module." trained 3 150) ]} |}.

Definition participant (size rank : Z) : DistributedTrainingInfo :=
  {| world_size := size; local_rank := rank; global_rank := rank |}.

(** The outcome of a run that returned. *)
Definition outcome (r : option (result (@run_outcome collaborators)))
    : @run_outcome collaborators :=
  match r with
  | Some (Ok o) => o
  | _ => {| run_args := ∅; run_fs := empty_fs;
            run_train := {| out_harness := config; out_epoch := 0;
                            out_global_step := 0; out_calls := [] |} |}
  end.

End Demo.

(** ** Claims of the specification that the code does not meet, as stated *)

(** C2 as stated, in its sample values: with [warmup_epochs = 5] and the
    thresholds [20, 40] the schedule returns 1.0 at epoch 4, 0.1 at epoch
    20 and 0.01 at epoch 40, and without thresholds 0.2 at epoch 0, each
    decimal standing for the float nearest to it. *)
Definition schedule_hits_stated_values : Prop :=
  _lr_schedule_binary64 4 5 (Some [20; 40]) = Ok (B64.Finite (B64.round 1))
  ∧ _lr_schedule_binary64 20 5 (Some [20; 40])
    = Ok (B64.Finite (B64.round (1 # 10)))
  ∧ _lr_schedule_binary64 40 5 (Some [20; 40])
    = Ok (B64.Finite (B64.round (1 # 100)))
  ∧ _lr_schedule_binary64 0 5 (Some []) = Ok (B64.Finite (B64.round (2 # 10))).



(** C5 as stated: a total batch size that the world size does not divide
    makes the partitioner fail. *)
Definition rejects_uneven_batch : Prop :=
  ∀ (total : Z) (c : DistributedTrainingInfo),
    world_size c ≠ 0 → total `mod` world_size c ≠ 0 →
    ∃ e, train_batch_size (VInt total) (Some c) = Raise e
         ∧ classify e = ConfigurationError.

(** C10 as stated: when no saved key starts with the wrapper prefix, the
    keys handed to the model are not the saved keys. *)
Definition unprefixed_keys_change : Prop :=
  ∀ saved : list (string * tensor),
    NoDup saved.*1 →
    Forall (λ k, Py.startswith "module." k = false) saved.*1 →
    dom (strip_module_prefix saved) ≠ list_to_set saved.*1.


(** ** Vocabulary of the further properties *)

(** The options [train] reads from [args] by subscript. *)
Definition train_keys : list string :=
  ["hidden_size"; "model_state"; "batch_size"; "optimizer"; "learning_rate";
   "profile"; "num_prop_rounds"; "num_epochs"].

(** Collaborators whose harness returns the epoch it was given: an epoch
    adds steps but never ends. *)
Definition stalled : Collaborators := {|
  harness := harness_config;
  dataloader := unit;
  make_graph_model := λ _ _ _ _ _ _, Ok Demo.network;
  GraphModelHarness := λ c _ _, c;
  train_epochs := λ h epoch global_step, Ok (h, (epoch, global_step + 1));
  initialize_datasets := λ _ _, Ok (tt, None, Some 50, None, None)
|}.

(** The harness of a setup that succeeded. *)
Definition outcome_harness (r : result (harness_config * Z * Z))
    : harness_config :=
  match r with
  | Ok (h, _, _) => h
  | Raise _ => Demo.config
  end.

(** What a path option may hold for [run] to resolve it: [None] or a
    string. *)
Definition path_value (v : Py.value) : Prop :=
  v = VNone ∨ ∃ p, v = VStr p.

(** * Properties *)

(** ** Binary search *)

Section Bisect.

Implicit Types (a : list Z) (x : Z).

Lemma Sorted_le_lookup a i j vi vj :
  Sorted Z.le a → (i ≤ j)%nat → a !! i = Some vi → a !! j = Some vj → vi ≤ vj.
Proof.
  intros Hs. apply Sorted_StronglySorted in Hs; [|intros ???; lia].
  revert i j. induction Hs as [|v l Hl IH Hall]; intros i j Hij Hi Hj.
  - by rewrite lookup_nil in Hi.
  - destruct i as [|i], j as [|j]; simpl in *.
    + injection Hi as ->. injection Hj as ->. lia.
    + injection Hi as ->. rewrite Forall_forall in Hall. apply Hall.
      eapply list_elem_of_lookup_2. done.
    + lia.
    + eapply IH; [|done..]. lia.
Qed.

(** The loop keeps its window inside the list, so it never reads out of
    range, and it keeps everything left of the window at most [x] and
    everything right of it above [x]. *)
Lemma bisect_loop_spec a x lo hi :
  Sorted Z.le a →
  (lo ≤ hi ≤ length a)%nat →
  (∀ i v, (i < lo)%nat → a !! i = Some v → v ≤ x) →
  (∀ i v, (hi ≤ i)%nat → a !! i = Some v → x < v) →
  ∃ r, Py.bisect_loop a x lo hi = Ok r ∧ (r ≤ length a)%nat ∧
       (∀ i v, (i < r)%nat → a !! i = Some v → v ≤ x) ∧
       (∀ i v, (r ≤ i)%nat → a !! i = Some v → x < v).
Proof.
  intros Hs. funelim (Py.bisect_loop a x lo hi); intros Hb Hlo Hhi.
  - exists lo. split; [done|]. split; [lia|]. split; [done|].
    intros i v Hi. apply Hhi. lia.
  - exfalso. apply lookup_ge_None in Heq.
    pose proof (Nat.div_mod_eq (lo + hi) 2).
    pose proof (Nat.mod_upper_bound (lo + hi) 2). lia.
  - pose proof (Nat.div_mod_eq (lo + hi) 2).
    pose proof (Nat.mod_upper_bound (lo + hi) 2).
    apply H; [done|lia|done|].
    intros i w Hi Hw. pose proof (Sorted_le_lookup _ _ _ _ _ Hs Hi Heq0 Hw). lia.
  - pose proof (Nat.div_mod_eq (lo + hi) 2).
    pose proof (Nat.mod_upper_bound (lo + hi) 2).
    apply H; [done|lia| |done].
    intros i w Hi Hw.
    assert (w ≤ v); [|lia].
    eapply (Sorted_le_lookup a i ((lo + hi) / 2)); [done|lia|done..].
Qed.

End Bisect.

Lemma filter_length_all {A} (P : A → Prop) `{∀ t, Decision (P t)} (l : list A) :
  Forall P l → length (filter P l) = length l.
Proof.
  induction 1 as [|t l Ht _ IH]; [done|].
  rewrite filter_cons_True by done. simpl. by rewrite IH.
Qed.

Lemma filter_length_none {A} (P : A → Prop) `{∀ t, Decision (P t)} (l : list A) :
  Forall (λ t, ¬ P t) l → length (filter P l) = 0%nat.
Proof.
  induction 1 as [|t l Ht _ IH]; [done|].
  by rewrite filter_cons_False.
Qed.

(** A cut point with everything at most [x] before it and everything
    above [x] from it on is the number of elements at most [x]. *)
Lemma count_le_cut (a : list Z) (x : Z) (r : nat) :
  (r ≤ length a)%nat →
  (∀ i v, (i < r)%nat → a !! i = Some v → v ≤ x) →
  (∀ i v, (r ≤ i)%nat → a !! i = Some v → x < v) →
  count_le a x = r.
Proof.
  intros Hr Hbefore Hafter. unfold count_le.
  rewrite <- (take_drop r a) at 1.
  rewrite filter_app, length_app.
  rewrite filter_length_all, filter_length_none.
  - rewrite length_take. lia.
  - apply Forall_lookup. intros i v Hv. rewrite lookup_drop in Hv.
    assert (x < v); [|lia]. eapply Hafter; [|done]. lia.
  - apply Forall_lookup. intros i v Hv.
    apply lookup_take_Some in Hv as [Hv Hi]. by eapply Hbefore.
Qed.

(** On a list in non-decreasing order, [bisect_right] returns, without
    raising, the number of elements that are at most [x]: an element equal
    to [x] is counted. *)
Lemma bisect_right_count (a : list Z) (x : Z) :
  Sorted Z.le a → Py.bisect_right a x = Ok (count_le a x).
Proof.
  intros Hs. unfold Py.bisect_right.
  destruct (bisect_loop_spec a x 0 (length a) Hs) as (r & -> & Hr & Hbefore & Hafter).
  - lia.
  - intros i v Hi. lia.
  - intros i v Hi Hv. apply lookup_lt_Some in Hv. lia.
  - f_equal. symmetry. by apply count_le_cut.
Qed.

(** Without any order on the list the search still ends inside the list. *)
Lemma bisect_loop_total (a : list Z) (x : Z) (lo hi : nat) :
  (lo ≤ hi ≤ length a)%nat →
  ∃ r, Py.bisect_loop a x lo hi = Ok r ∧ (lo ≤ r ≤ hi)%nat.
Proof.
  funelim (Py.bisect_loop a x lo hi); intros Hb.
  - exists lo. split; [done|lia].
  - exfalso. apply lookup_ge_None in Heq.
    pose proof (Nat.div_mod_eq (lo + hi) 2).
    pose proof (Nat.mod_upper_bound (lo + hi) 2). lia.
  - pose proof (Nat.div_mod_eq (lo + hi) 2).
    pose proof (Nat.mod_upper_bound (lo + hi) 2).
    destruct H as (r & Hr & ?); [lia|]. exists r. split; [done|lia].
  - pose proof (Nat.div_mod_eq (lo + hi) 2).
    pose proof (Nat.mod_upper_bound (lo + hi) 2).
    destruct H as (r & Hr & ?); [lia|]. exists r. split; [done|lia].
Qed.

(** ** The learning-rate schedule in exact arithmetic *)

Lemma py_min_Qmin (x y : Q) : (Py.min x y == Qmin x y)%Q.
Proof.
  unfold Py.min. destruct (Qlt_le_dec y x) as [Hlt|Hle].
  - symmetry. apply Q.min_r. by apply Qlt_le_weak.
  - symmetry. by apply Q.min_l.
Qed.


Section Decay.

Local Open Scope Q_scope.






End Decay.

Lemma lr_schedule_total (epoch warmup_epochs : Z) (decay_epochs : list Z) :
  warmup_epochs ≠ 0 →
  ∃ k, _lr_schedule epoch warmup_epochs (Some decay_epochs)
       = Ok (Py.min (inject_Z (epoch + 1) / inject_Z warmup_epochs) 1
             * decay k)%Q.
Proof.
  intros Hw. unfold _lr_schedule, Py.truediv, Py.bisect_right. simpl.
  destruct (decide (warmup_epochs = 0)) as [|_]; [done|]. simpl.
  destruct (bisect_loop_total decay_epochs epoch 0 (length decay_epochs))
    as (k & -> & _); [lia|].
  by exists k.
Qed.

(** ** Rounding to binary64 *)

Section Rounding.

Local Open Scope Q_scope.

Import B64.

Lemma pow2_pos (e : Z) : 0 < pow2 e.
Proof. apply Qpower_0_lt. reflexivity. Qed.

Lemma pow2_add (a b : Z) : pow2 (a + b) == pow2 a * pow2 b.
Proof. apply Qpower_plus. discriminate. Qed.

Lemma pow2_sub (a b : Z) : pow2 (a - b) == pow2 a / pow2 b.
Proof. apply Qpower_minus. discriminate. Qed.


Lemma pow2_le_inv (a b : Z) : pow2 a <= pow2 b → (a ≤ b)%Z.
Proof. intros Hab. eapply Qpower_le_compat_l_inv; [exact Hab|reflexivity]. Qed.


Lemma pow2_inject (k : Z) : (0 ≤ k)%Z → inject_Z (2 ^ k) == pow2 k.
Proof. intros Hk. unfold pow2. by rewrite Zpower_Qpower. Qed.

(** [ilog2 x] is the binary order of magnitude of [x]. *)
Lemma ilog2_spec (x : Q) :
  0 < x → pow2 (ilog2 x) <= x ∧ x < pow2 (ilog2 x + 1).
Proof.
  intros Hx. destruct x as [n d]. unfold ilog2. cbn [Qnum Qden].
  assert (Hn : (0 < n)%Z).
  { unfold Qlt in Hx. simpl in Hx. lia. }
  pose proof (Z.log2_spec n Hn) as [Hn1 Hn2].
  pose proof (Z.log2_spec (Z.pos d) (Pos2Z.is_pos d)) as [Hd1 Hd2].
  pose proof (Z.log2_nonneg n) as Hln.
  pose proof (Z.log2_nonneg (Z.pos d)) as Hld.
  set (ln := Z.log2 n) in *. set (ld := Z.log2 (Z.pos d)) in *.
  rewrite <- Z.add_1_r in Hn2, Hd2.
  rewrite Zle_Qle in Hn1, Hd1. rewrite Zlt_Qlt in Hn2, Hd2.
  rewrite pow2_inject in Hn1, Hd1, Hn2, Hd2 by lia.
  rewrite pow2_add in Hn2, Hd2. change (pow2 1) with 2 in Hn2, Hd2.
  pose proof (pow2_pos ln) as Hpn. pose proof (pow2_pos ld) as Hpd.
  assert (HD : 0 < inject_Z (Z.pos d)).
  { change 0 with (inject_Z 0). by rewrite <- Zlt_Qlt. }
  assert (Hxq : n # d == inject_Z n / inject_Z (Z.pos d)) by apply Qmake_Qdiv.
  destruct (Qle_bool (pow2 (ln - ld)) (n # d)) eqn:Hb.
  - apply Qle_bool_iff in Hb. split; [exact Hb|].
    replace (ln - ld + 1)%Z with (ln + 1 - ld)%Z by lia.
    rewrite pow2_sub, pow2_add, Hxq. change (pow2 1) with 2.
    apply Qlt_shift_div_l; [done|].
    unfold Qdiv. rewrite <- Qmult_assoc, (Qmult_comm (/ _)), Qmult_assoc.
    apply Qlt_shift_div_r; [done|]. nra.
  - assert (Hlt : n # d < pow2 (ln - ld)).
    { apply Qnot_le_lt. intros Hle. apply Qle_bool_iff in Hle. congruence. }
    replace (ln - ld - 1 + 1)%Z with (ln - ld)%Z by lia.
    split; [|exact Hlt].
    replace (ln - ld - 1)%Z with (ln - (ld + 1))%Z by lia.
    rewrite pow2_sub, pow2_add, Hxq. change (pow2 1) with 2.
    apply Qle_shift_div_r; [nra|].
    unfold Qdiv. rewrite <- Qmult_assoc, (Qmult_comm (/ _)), Qmult_assoc.
    apply Qle_shift_div_l; [done|]. nra.
Qed.

Lemma rne_ge (y : Q) (N : Z) : inject_Z N <= y → (N ≤ rne y)%Z.
Proof.
  intros Hy. apply Qfloor_resp_le in Hy. rewrite Qfloor_Z in Hy.
  unfold rne. destruct (_ ?= _); [destruct (Z.even _)|..]; lia.
Qed.

Lemma rne_le (y : Q) (N : Z) : y <= inject_Z N → (rne y ≤ N)%Z.
Proof.
  intros Hy. pose proof (Qfloor_resp_le _ _ Hy) as Hf. rewrite Qfloor_Z in Hf.
  unfold rne. destruct (Z.eq_dec (Qfloor y) N) as [Heq|Hne].
  - assert (Hlt : y - inject_Z (Qfloor y) < 1 # 2).
    { rewrite Heq. lra. }
    destruct (Qcompare_spec (y - inject_Z (Qfloor y)) (1 # 2)) as [Hc|Hc|Hc];
      [lra|lia|lra].
  - destruct (_ ?= _); [destruct (Z.even _)|..]; lia.
Qed.

(** Rounding a positive number does not cross a power of two of the
    normal range. *)
Lemma round_pos_le_pow2 (x : Q) (k : Z) :
  0 < x → (-1022 ≤ k)%Z → x <= pow2 k → round_pos x <= pow2 k.
Proof.
  intros Hx Hk Hle. destruct (ilog2_spec x Hx) as [Hlo _].
  assert (He : (ilog2 x ≤ k)%Z).
  { apply pow2_le_inv. by apply Qle_trans with x. }
  unfold round_pos, ulp_exponent.
  set (u := (Z.max (ilog2 x) (-1022) - 52)%Z).
  pose proof (pow2_pos u) as Hu.
  assert (Hku : (0 ≤ k - u)%Z) by lia.
  assert (Hsplit : pow2 k == inject_Z (2 ^ (k - u)) * pow2 u).
  { rewrite pow2_inject by done. rewrite <- pow2_add.
    by replace (k - u + u)%Z with k by lia. }
  rewrite Hsplit. apply Qmult_le_compat_r; [|by apply Qlt_le_weak].
  rewrite <- Zle_Qle. apply rne_le.
  apply Qle_shift_div_r; [done|]. by rewrite <- Hsplit.
Qed.


Lemma round_pos_nonneg (x : Q) : 0 <= x → 0 <= round_pos x.
Proof.
  intros Hx. unfold round_pos.
  pose proof (pow2_pos (ulp_exponent x)) as Hu.
  apply Qmult_le_0_compat; [|by apply Qlt_le_weak].
  change 0 with (inject_Z 0). rewrite <- Zle_Qle. apply rne_ge.
  apply Qle_shift_div_l; [done|]. by rewrite Qmult_0_l.
Qed.

(** [round] by the sign of its argument. *)
Lemma round_of_pos (x : Q) : 0 < x → round x == round_pos (Qred x).
Proof.
  intros Hx. unfold round. rewrite Qred_correct.
  assert (Hr : 0 < Qred x) by (by rewrite Qred_correct).
  destruct (Qred x) as [n d]. unfold Qlt in Hr. simpl in Hr.
  cbn [Qnum]. destruct n; [lia|reflexivity|lia].
Qed.

Lemma round_of_neg (x : Q) : x < 0 → round x == - round_pos (Qred (- x)).
Proof.
  intros Hx. unfold round. rewrite Qred_correct.
  assert (Hr : Qred x < 0) by (by rewrite Qred_correct).
  rewrite Qred_opp.
  destruct (Qred x) as [n d]. unfold Qlt in Hr. simpl in Hr.
  cbn [Qnum]. destruct n; [lia|lia|reflexivity].
Qed.

Lemma round_of_zero (x : Q) : x == 0 → round x == 0.
Proof.
  intros Hx. unfold round. rewrite Qred_correct.
  assert (Hr : Qred x == 0) by (by rewrite Qred_correct).
  destruct (Qred x) as [n d]. unfold Qeq in Hr. simpl in Hr.
  cbn [Qnum]. destruct n; [reflexivity|lia|lia].
Qed.

(** Equal fractions round to the same reduced fraction. *)
Lemma round_eq (x y : Q) : x == y → round x = round y.
Proof. intros Hxy. unfold round. by rewrite (Qred_complete x y Hxy). Qed.

Lemma round_nonneg (x : Q) : 0 <= x → 0 <= round x.
Proof.
  intros Hx. destruct (Qlt_le_dec 0 x) as [Hpos|Hle].
  - rewrite round_of_pos by done. apply round_pos_nonneg.
    by rewrite Qred_correct.
  - rewrite round_of_zero; [apply Qle_refl|]. by apply Qle_antisym.
Qed.

Lemma round_nonpos (x : Q) : x <= 0 → round x <= 0.
Proof.
  intros Hx. destruct (Qlt_le_dec x 0) as [Hneg|Hle].
  - rewrite round_of_neg by done.
    assert (0 <= round_pos (Qred (- x))); [|lra].
    apply round_pos_nonneg. rewrite Qred_correct. lra.
  - rewrite round_of_zero; [apply Qle_refl|]. by apply Qle_antisym.
Qed.

Lemma round_le_pow2 (x : Q) (k : Z) :
  (-1022 ≤ k)%Z → x <= pow2 k → round x <= pow2 k.
Proof.
  intros Hk Hle. destruct (Qlt_le_dec 0 x) as [Hpos|Hneg].
  - rewrite round_of_pos by done.
    apply round_pos_le_pow2;
      [by rewrite Qred_correct|done|by rewrite Qred_correct].
  - apply Qle_trans with 0; [by apply round_nonpos|].
    apply Qlt_le_weak, pow2_pos.
Qed.


Lemma round_opp (x : Q) : round (- x) == - round x.
Proof.
  destruct (Q_dec 0 x) as [[Hpos|Hneg]|Hz].
  - rewrite (round_of_neg (- x)) by lra.
    rewrite (Qred_complete (- - x) x (Qopp_involutive x)).
    by rewrite (round_of_pos x).
  - rewrite (round_of_neg x) by done. rewrite (round_of_pos (- x)) by lra.
    by rewrite Qopp_involutive.
  - rewrite (round_of_zero x), (round_of_zero (- x)); lra.
Qed.

(** Rounding keeps a number of [0, 1] in [0, 1], and a number from 1 on
    at 1 or above. *)
Lemma round_unit_interval (x : Q) : 0 <= x <= 1 → 0 <= round x <= 1.
Proof.
  intros [H0 H1]. split; [by apply round_nonneg|].
  apply (round_le_pow2 x 0); [lia|done].
Qed.


(** Up to [2 ** 1023] in magnitude nothing overflows. *)
Lemma round_no_overflow (x : Q) :
  Qabs x <= pow2 1023 → overflows (round x) = false.
Proof.
  intros Hx. apply Qabs_Qle_condition in Hx as [Hlo Hhi].
  unfold overflows.
  destruct (Qle_bool (pow2 1024) (Qabs (round x))) eqn:Hb; [|done].
  apply Qle_bool_iff in Hb. exfalso.
  assert (Hup : round x <= pow2 1023) by (by apply round_le_pow2).
  assert (Hdn : round (- x) <= pow2 1023).
  { apply round_le_pow2; [done|]. lra. }
  rewrite round_opp in Hdn.
  assert (Habs : Qabs (round x) <= pow2 1023).
  { apply Qabs_Qle_condition. split; lra. }
  assert (pow2 1024 <= pow2 1023) as Hc%pow2_le_inv by lra. lia.
Qed.

Lemma overflows_unit (r : Q) : 0 <= r <= 1 → overflows r = false.
Proof.
  intros [H0 H1]. unfold overflows.
  destruct (Qle_bool (pow2 1024) (Qabs r)) eqn:Hb; [|done].
  apply Qle_bool_iff in Hb. rewrite Qabs_pos in Hb by done.
  assert (pow2 1024 <= pow2 0) as Hc%pow2_le_inv; [|lia].
  change (pow2 0) with 1. lra.
Qed.

Lemma tenth_unit : 0 <= tenth <= 1.
Proof. apply round_unit_interval. lra. Qed.

Lemma power_unit (x : Q) (k : nat) : 0 <= x <= 1 → 0 <= x ^ Z.of_nat k <= 1.
Proof.
  intros [H0 H1]. induction k as [|k [IH0 IH1]]; [simpl; lra|].
  rewrite Nat2Z.inj_succ, <- Z.add_1_l.
  rewrite Qpower_plus' by lia. change (x ^ 1) with x.
  split; [by apply Qmult_le_0_compat|].
  apply Qle_trans with (1 * 1); [by apply Qmult_le_compat_nonneg|lra].
Qed.

(** A power of a float of [0, 1] never overflows and lies in [0, 1]. *)
Lemma pow_unit (x : Q) (k : nat) :
  0 <= x <= 1 →
  pow x k = Ok (round (x ^ Z.of_nat k)) ∧ 0 <= round (x ^ Z.of_nat k) <= 1.
Proof.
  intros Hx. pose proof (round_unit_interval _ (power_unit x k Hx)) as Hr.
  split; [|done]. unfold pow. by rewrite (overflows_unit _ Hr).
Qed.

(** The product of two floats of [0, 1] is a float of [0, 1]. *)
Lemma mul_unit (x y : Q) :
  0 <= x <= 1 → 0 <= y <= 1 →
  mul x y = Finite (round (x * y)) ∧ 0 <= round (x * y) <= 1.
Proof.
  intros [Hx0 Hx1] [Hy0 Hy1].
  assert (Hr : 0 <= round (x * y) <= 1).
  { apply round_unit_interval. split; [by apply Qmult_le_0_compat|].
    apply Qle_trans with (1 * 1); [by apply Qmult_le_compat_nonneg|lra]. }
  split; [|done]. unfold mul. by rewrite (overflows_unit _ Hr).
Qed.

Lemma mul_eq (x x' y : Q) : x == x' → mul x y = mul x' y.
Proof.
  intros Hx. unfold mul. rewrite (round_eq (x * y) (x' * y)); [done|].
  by rewrite Hx.
Qed.

Lemma truediv_nonzero (a b : Z) :
  b ≠ 0%Z →
  truediv a b
  = if overflows (round (inject_Z a / inject_Z b)) then Raise OverflowError
    else Ok (round (inject_Z a / inject_Z b)).
Proof. intros Hb. unfold truediv. by rewrite decide_False. Qed.

(** The quotient of two integers is within range when the dividend is. *)
Lemma truediv_in_range (a b : Z) :
  b ≠ 0%Z → (Z.abs a ≤ 2 ^ 1023)%Z →
  truediv a b = Ok (round (inject_Z a / inject_Z b)).
Proof.
  intros Hb Ha. rewrite truediv_nonzero by done.
  rewrite round_no_overflow; [done|].
  assert (Hqb : 1 <= Qabs (inject_Z b)).
  { change (Qabs (inject_Z b)) with (inject_Z (Z.abs b)).
    change 1 with (inject_Z 1). rewrite <- Zle_Qle. lia. }
  assert (Hqa : Qabs (inject_Z a) <= pow2 1023).
  { change (Qabs (inject_Z a)) with (inject_Z (Z.abs a)).
    rewrite <- pow2_inject by lia. by rewrite <- Zle_Qle. }
  unfold Qdiv. rewrite Qabs_Qmult, Qabs_Qinv.
  pose proof (Qabs_nonneg (inject_Z a)) as Ha0.
  apply Qle_trans with (Qabs (inject_Z a)); [|done].
  apply Qle_shift_div_r; [lra|]. nra.
Qed.

End Rounding.

(** ** The schedule on floats *)

Section ScheduleBinary64.

Local Open Scope Q_scope.

(** The quotient [(epoch + 1) / warmup_epochs] of a non-negative epoch by
    a positive number of warmup epochs is a float of 0 or more, unless it
    overflows. *)
Lemma warmup_quotient (epoch warmup_epochs : Z) :
  (0 ≤ epoch)%Z → (0 < warmup_epochs)%Z →
  let r := B64.round (inject_Z (epoch + 1) / inject_Z warmup_epochs) in
  0 <= r
  ∧ B64.truediv (epoch + 1) warmup_epochs
    = (if B64.overflows r then Raise OverflowError else Ok r)
  ∧ ((epoch + 1 ≤ 2 ^ 1023)%Z → B64.overflows r = false).
Proof.
  intros He Hw r. split; [|split].
  - apply round_nonneg. apply Qle_shift_div_l.
    + change 0 with (inject_Z 0). rewrite <- Zlt_Qlt. lia.
    + rewrite Qmult_0_l. change 0 with (inject_Z 0). rewrite <- Zle_Qle. lia.
  - apply truediv_nonzero. lia.
  - intros Hsmall.
    pose proof (truediv_in_range (epoch + 1) warmup_epochs) as Hin.
    rewrite truediv_nonzero in Hin by lia. fold r in Hin.
    destruct (B64.overflows r); [|done].
    discriminate Hin; lia.
Qed.

(** The value of the schedule once the quotient and the search have
    returned. *)
Lemma lr_schedule_binary64_value (epoch warmup_epochs : Z)
    (decay_epochs : option (list Z)) (q : Q) (k : nat) :
  B64.truediv (epoch + 1) warmup_epochs = Ok q → 0 <= q →
  Py.bisect_right (default [] decay_epochs) epoch = Ok k →
  let r := B64.round (Qmin q 1 * B64.round (B64.tenth ^ Z.of_nat k)) in
  _lr_schedule_binary64 epoch warmup_epochs decay_epochs = Ok (B64.Finite r)
  ∧ 0 <= r <= 1.
Proof.
  intros Hq Hq0 Hk r. unfold _lr_schedule_binary64.
  rewrite Hq. simpl. rewrite Hk. simpl.
  destruct (pow_unit B64.tenth k tenth_unit) as [-> Hp]. simpl.
  assert (Hmin : 0 <= Qmin q 1 <= 1).
  { split; [apply Q.min_glb; [done|lra]|apply Q.le_min_r]. }
  destruct (mul_unit (Qmin q 1) _ Hmin Hp) as [Hmul Hr].
  split; [|exact Hr]. unfold mret, result_ret. do 2 f_equal.
  rewrite (mul_eq _ (Qmin q 1)) by apply py_min_Qmin.
  rewrite Hmul. reflexivity.
Qed.

End ScheduleBinary64.


(** The sample values the specification gives are decimal fractions; the
    floats nearest to them are these, and the product and the quotient of
    the hardware, on the primitive floats of the proof assistant, are the
    rounded ones of [B64]. *)
Example round_agrees_with_primitive_floats :
  B64.round (1 # 10) = 3602879701896397 # 36028797018963968
  ∧ B64.of_prim 0x1.999999999999ap-4%float = Some (B64.round (1 # 10))
  ∧ B64.of_prim 0x1.47ae147ae147bp-7%float = Some (B64.round (1 # 100))
  ∧ B64.of_prim (0x1.999999999999ap-4 * 0x1.999999999999ap-4)%float
    = Some (B64.round (B64.round (1 # 10) * B64.round (1 # 10)))
  ∧ B64.of_prim (3 / 5)%float = Some (B64.round (3 # 5))
  ∧ B64.of_prim (1 / 3)%float = Some (B64.round (1 # 3))
  ∧ B64.of_prim (0x1p-1074 / 2)%float = Some (B64.round (B64.pow2 (-1075)))
  ∧ B64.of_prim (0x1.8p-1074 * 0x1p-1)%float
    = Some (B64.round (3 * B64.pow2 (-1076)))
  ∧ B64.of_prim (0x1.fffffffffffffp+1023 * 1)%float
    = Some (B64.round ((inject_Z (2 ^ 53) - 1) * B64.pow2 971)).
Proof. repeat split; vm_compute; reflexivity. Qed.

(** C2 fails on the code at epoch 40: the schedule returns the float
    above 0.01, the one written 0.010000000000000002, because [0.1 ** 2]
    squares the float nearest to a tenth, which is a little more than a
    tenth. *)
Lemma lr_schedule_misses_hundredth :
  ¬ schedule_hits_stated_values
  ∧ _lr_schedule_binary64 40 5 (Some [20; 40])
    = Ok (B64.Finite (1441151880758559 # 144115188075855872))
  ∧ B64.round (1 # 100) = 5764607523034235 # 576460752303423488
  ∧ B64.round (10000000000000002 # 1000000000000000000)
    = 1441151880758559 # 144115188075855872.
Proof.
  assert (H40 : _lr_schedule_binary64 40 5 (Some [20; 40])
                = Ok (B64.Finite (1441151880758559 # 144115188075855872)))
    by (vm_compute; reflexivity).
  split; [|split; [exact H40|split; vm_compute; reflexivity]].
  intros (_ & _ & Hclaim & _). rewrite H40 in Hclaim.
  by vm_compute in Hclaim.
Qed.

(** C2, amended: for [epoch >= 0] and [warmup_epochs > 0], on thresholds
    in non-decreasing order, the schedule raises [OverflowError] when the
    quotient [(epoch + 1) / warmup_epochs] is too large for a float, which
    needs [epoch + 1 > 2 ** 1023], and otherwise returns
    [min((epoch + 1) / warmup_epochs, 1) * 0.1 ** n] with the quotient, the
    power and the product each rounded to binary64, [n] being the number
    of thresholds that are at most [epoch].  With [warmup_epochs = 5] and
    the thresholds [20, 40] it returns 1.0 at epoch 4, 0.1 at epoch 20 and
    0.010000000000000002, which is not 0.01, at epoch 40; without
    thresholds it returns 0.2 at epoch 0. *)
Theorem lr_schedule_binary64_formula :
  (∀ (epoch warmup_epochs : Z) (decay_epochs : list Z),
     0 ≤ epoch → 0 < warmup_epochs → Sorted Z.le decay_epochs →
     _lr_schedule_binary64 epoch warmup_epochs (Some decay_epochs)
     = if B64.overflows
            (B64.round (inject_Z (epoch + 1) / inject_Z warmup_epochs))
       then Raise OverflowError
       else Ok (B64.Finite
                  (schedule_spec_binary64 epoch warmup_epochs decay_epochs)))
  ∧ (∀ epoch warmup_epochs : Z,
       0 ≤ epoch → 0 < warmup_epochs → epoch + 1 ≤ 2 ^ 1023 →
       B64.overflows
         (B64.round (inject_Z (epoch + 1) / inject_Z warmup_epochs)) = false)
  ∧ _lr_schedule_binary64 4 5 (Some [20; 40]) = Ok (B64.Finite 1)
  ∧ _lr_schedule_binary64 20 5 (Some [20; 40])
    = Ok (B64.Finite (B64.round (1 # 10)))
  ∧ _lr_schedule_binary64 40 5 (Some [20; 40])
    = Ok (B64.Finite (B64.round (10000000000000002 # 1000000000000000000)))
  ∧ ¬ (B64.round (10000000000000002 # 1000000000000000000)
       == B64.round (1 # 100))%Q
  ∧ _lr_schedule_binary64 0 5 (Some []) = Ok (B64.Finite (B64.round (2 # 10)))
  ∧ _lr_schedule_binary64 0 5 None = Ok (B64.Finite (B64.round (2 # 10))).
Proof.
  split.
  { intros epoch w d He Hw Hs.
    destruct (warmup_quotient epoch w He Hw) as (Hq0 & Hq & _).
    destruct (B64.overflows _) eqn:Hov.
    - unfold _lr_schedule_binary64. by rewrite Hq.
    - apply (lr_schedule_binary64_value epoch w (Some d) _
               (count_le d epoch) Hq Hq0).
      by apply bisect_right_count. }
  split.
  { intros epoch w He Hw Hsmall.
    by apply (warmup_quotient epoch w He Hw). }
  repeat split; try (vm_compute; reflexivity).
  intros Heq. by vm_compute in Heq.
Qed.

Lemma lr_schedule_binary64_formula_witness :
  _lr_schedule_binary64 39 5 (Some [20; 40])
  = Ok (B64.Finite (schedule_spec_binary64 39 5 [20; 40]))
  ∧ schedule_spec_binary64 39 5 [20; 40] = B64.round (1 # 10).
Proof.
  split; [|vm_compute; reflexivity].
  pose proof (proj1 lr_schedule_binary64_formula 39 5 [20; 40]) as Hf.
  rewrite (proj1 (proj2 lr_schedule_binary64_formula) 39 5) in Hf;
    [|lia|lia|vm_compute; discriminate].
  apply Hf; [lia|lia|repeat constructor; lia].
Defined.





(** On a list that is not ordered the search result is no longer the
    count of elements at most [x]: the order of the thresholds matters. *)
Example bisect_right_unordered :
  Py.bisect_right [40; 20] 30 = Ok 2%nat ∧ count_le [40; 20] 30 = 1%nat.
Proof. split; reflexivity. Qed.

(** ** The distributed partitioner *)

Lemma train_batch_size_distributed (total : Z) (c : DistributedTrainingInfo) :
  world_size c ≠ 0 →
  train_batch_size (VInt total) (Some c) = Ok (VInt (total / world_size c)).
Proof.
  intros Hws. unfold train_batch_size, Py.floordiv. simpl.
  by destruct (decide (world_size c = 0)).
Qed.

(** C3: without a distributed context the participant's batch size is the
    total batch size and the participant is the leader; with one, the
    batch size is [total_batch_size // world_size] (the quotient rounded
    down, which for a non-negative total and a positive world size is the
    truncated quotient: 2048 over 4 gives 512, over 3 gives 682) and the
    participant is the leader exactly when its global rank is 0. *)
Theorem partition_batch_size_leader :
  (∀ total : Z, train_batch_size (VInt total) None = Ok (VInt total))
  ∧ distributed_utils.is_leader None = true
  ∧ (∀ (total : Z) (c : DistributedTrainingInfo),
       world_size c ≠ 0 →
       train_batch_size (VInt total) (Some c)
       = Ok (VInt (total / world_size c)))
  ∧ (∀ (total : Z) (c : DistributedTrainingInfo),
       0 ≤ total → 0 < world_size c →
       total / world_size c = total ÷ world_size c
       ∧ world_size c * (total / world_size c) ≤ total
         < world_size c * (total / world_size c) + world_size c)
  ∧ (∀ c : DistributedTrainingInfo,
       distributed_utils.is_leader (Some c) = true ↔ global_rank c = 0)
  ∧ train_batch_size (VInt 2048) (Some (Demo.participant 4 1)) = Ok (VInt 512)
  ∧ train_batch_size (VInt 2048) (Some (Demo.participant 3 1)) = Ok (VInt 682).
Proof.
  split; [done|]. split; [done|].
  split; [apply train_batch_size_distributed|].
  split.
  { intros total c Ht Hw. split.
    - symmetry. apply Z.quot_div_nonneg; lia.
    - pose proof (Z.div_mod total (world_size c)).
      pose proof (Z.mod_pos_bound total (world_size c)). lia. }
  split.
  { intros c. simpl. apply bool_decide_eq_true. }
  split; reflexivity.
Qed.

Lemma partition_batch_size_leader_witness :
  train_batch_size (VInt 100) (Some (Demo.participant 8 0)) = Ok (VInt 12)
  ∧ 100 / 8 = 100 ÷ 8
  ∧ distributed_utils.is_leader (Some (Demo.participant 8 0)) = true.
Proof.
  destruct partition_batch_size_leader as (_ & _ & Hdiv & Htrunc & Hlead & _).
  split; [apply (Hdiv 100 (Demo.participant 8 0)); simpl; lia|].
  split; [apply (Htrunc 100 (Demo.participant 8 0)); simpl; lia|].
  apply (Hlead (Demo.participant 8 0)). reflexivity.
Defined.

(** [train] reads the total batch size only to compute the participant's
    batch size: two totals that give the same participant batch size give
    the same run. *)
Lemma getitem_insert_ne {V} (d : gmap string V) (k k' : string) (v : V) :
  k ≠ k' → Py.getitem (<[k := v]> d) k' = Py.getitem d k'.
Proof. intros Hne. unfold Py.getitem. by rewrite lookup_insert_ne. Qed.

Lemma get_insert_ne {V} (d : gmap string V) (k k' : string) (v dflt : V) :
  k ≠ k' → Py.get (<[k := v]> d) k' dflt = Py.get d k' dflt.
Proof. intros Hne. unfold Py.get. by rewrite lookup_insert_ne. Qed.

Lemma train_loop_insert_ne `{Collaborators} (fuel : nat)
    (args : gmap string Py.value) (k : string) (v : Py.value) (h : harness)
    (epoch global_step : Z) (calls : list (Z * Z)) :
  k ≠ "num_epochs" →
  train_loop fuel (<[k := v]> args) h epoch global_step calls
  = train_loop fuel args h epoch global_step calls.
Proof.
  intros Hne. revert h epoch global_step calls.
  induction fuel as [|fuel IH]; intros h epoch global_step calls; simpl;
    rewrite getitem_insert_ne by done; [done|].
  destruct (Py.getitem args "num_epochs" ≫= Py.as_int) as [n|e]; [|done].
  destruct (decide (epoch < n)); [|done].
  destruct (train_epochs h epoch global_step) as [[h' [epoch' step']]|e];
    [|done].
  apply IH.
Qed.

Lemma getitem_insert_eq {V} (d : gmap string V) (k : string) (v : V) :
  Py.getitem (<[k := v]> d) k = Ok v.
Proof. unfold Py.getitem. by rewrite lookup_insert_eq. Qed.

Lemma getitem_lookup {V} (d : gmap string V) (k : string) (v : V) :
  d !! k = Some v → Py.getitem d k = Ok v.
Proof. intros Hk. unfold Py.getitem. by rewrite Hk. Qed.

Lemma make_model_insert_batch_size `{Collaborators}
    (feature_dimensions : gmap string Z) (args : gmap string Py.value)
    (v : Py.value) :
  make_model_with_arguments feature_dimensions (<["batch_size" := v]> args)
  = make_model_with_arguments feature_dimensions args.
Proof.
  unfold make_model_with_arguments.
  by rewrite !get_insert_ne, getitem_insert_ne by done.
Qed.

Lemma train_resume_insert_batch_size (fs : filesystem)
    (args : gmap string Py.value) (model : gmap string tensor) (v : Py.value) :
  train_resume fs (<["batch_size" := v]> args) model
  = train_resume fs args model.
Proof. unfold train_resume. by rewrite getitem_insert_ne by done. Qed.

Lemma train_optimizer_insert_batch_size (args : gmap string Py.value)
    (parameters : gmap string tensor) (v : Py.value) :
  train_optimizer (<["batch_size" := v]> args) parameters
  = train_optimizer args parameters.
Proof. unfold train_optimizer. by rewrite !getitem_insert_ne by done. Qed.

Lemma train_same_batch_size `{Collaborators} (fuel : nat) (fs : filesystem)
    (node_feature_mapping edge_feature_mapping : option feature_mapping)
    (dataloader_train : dataloader) (args : gmap string Py.value)
    (output_dir : option string) (dataloader_eval : option dataloader)
    (batches_per_epoch : option Z)
    (dist_config : option DistributedTrainingInfo) (total total' : Py.value) :
  args !! "batch_size" = Some total →
  train_batch_size total' dist_config = train_batch_size total dist_config →
  train fuel fs node_feature_mapping edge_feature_mapping dataloader_train
        (<["batch_size" := total']> args) output_dir dataloader_eval
        batches_per_epoch dist_config
  = train fuel fs node_feature_mapping edge_feature_mapping dataloader_train
          args output_dir dataloader_eval batches_per_epoch dist_config.
Proof.
  intros Htotal Hsame. unfold train, train_setup.
  rewrite make_model_insert_batch_size.
  destruct (make_model_with_arguments _ args) as [model|e]; simpl; [|done].
  rewrite train_resume_insert_batch_size.
  destruct (train_resume fs args model) as [[[model' epoch] global_step]|e];
    simpl; [|done].
  rewrite getitem_insert_eq, (getitem_lookup _ _ _ Htotal). simpl.
  rewrite Hsame.
  destruct (train_batch_size total dist_config) as [batch_size|e]; simpl;
    [|done].
  rewrite train_optimizer_insert_batch_size.
  destruct (train_optimizer args model') as [scheduler|e]; simpl; [|done].
  destruct (if distributed_utils.is_leader dist_config then _ else _)
    as [[tb_main tb_eval]|e]; simpl; [|done].
  rewrite !getitem_insert_ne by done.
  destruct (Py.getitem args "profile") as [profile|e]; simpl; [|done].
  destruct (Py.getitem args "hidden_size") as [embedding_dim|e]; simpl;
    [|done].
  destruct (Py.getitem args "num_prop_rounds") as [depth|e]; simpl; [|done].
  by apply train_loop_insert_ne.
Qed.

(** C5 fails on the code: with a total batch size of 2048 over three
    participants nothing is raised; the batch size is 682 and [run]
    trains all its epochs with it. *)
Lemma uneven_batch_is_accepted :
  ¬ rejects_uneven_batch
  ∧ 2048 `mod` 3 ≠ 0
  ∧ train_batch_size (VInt 2048) (Some (Demo.participant 3 0)) = Ok (VInt 682)
  ∧ ∃ o, @run Demo.collaborators 3 Demo.env Demo.empty_fs
              (<["num_epochs" := VInt 3]> (parser_defaults "train.npy"))
              (Some (Demo.participant 3 0)) = Some (Ok o)
         ∧ hc_batch_size (out_harness (run_train o)) = VInt 682
         ∧ out_calls (run_train o) = [(0, 0); (1, 50); (2, 100)].
Proof.
  split.
  { intros Hclaim.
    destruct (Hclaim 2048 (Demo.participant 3 0)) as (e & He & _); done. }
  split; [done|]. split; [reflexivity|].
  exists (Demo.outcome
            (@run Demo.collaborators 3 Demo.env Demo.empty_fs
               (<["num_epochs" := VInt 3]> (parser_defaults "train.npy"))
               (Some (Demo.participant 3 0)))).
  split; [reflexivity|]. split; reflexivity.
Qed.

(** C5, amended: in a distributed run whose total batch size is not a
    multiple of the (non-zero) world size, computing the participant's
    batch size raises nothing: it is the quotient rounded down, and the
    remainder is dropped, so the participants together cover fewer than
    [total_batch_size] examples when the world size is positive.
    Training proceeds: [train] does exactly what it does when the total is
    the multiple of the world size just below. *)
Theorem uneven_batch_truncates (total : Z) (c : DistributedTrainingInfo) :
  world_size c ≠ 0 → total `mod` world_size c ≠ 0 →
  train_batch_size (VInt total) (Some c) = Ok (VInt (total / world_size c))
  ∧ world_size c * (total / world_size c) ≠ total
  ∧ (0 < world_size c → world_size c * (total / world_size c) < total)
  ∧ (∀ (C : Collaborators) (fuel : nat) (fs : filesystem)
       (node_feature_mapping edge_feature_mapping : option feature_mapping)
       (dataloader_train : dataloader) (args : gmap string Py.value)
       (output_dir : option string) (dataloader_eval : option dataloader)
       (batches_per_epoch : option Z),
       args !! "batch_size" = Some (VInt total) →
       train fuel fs node_feature_mapping edge_feature_mapping
             dataloader_train args output_dir dataloader_eval
             batches_per_epoch (Some c)
       = train fuel fs node_feature_mapping edge_feature_mapping
               dataloader_train
               (<["batch_size" := VInt (world_size c * (total / world_size c))]>
                  args)
               output_dir dataloader_eval batches_per_epoch (Some c)).
Proof.
  intros Hws Hmod. split; [by apply train_batch_size_distributed|].
  pose proof (Z.div_mod total (world_size c) Hws).
  split; [lia|]. split.
  - intros Hpos.
    pose proof (Z.mod_pos_bound total (world_size c) Hpos). lia.
  - intros C fuel fs nfm efm dl args out dle bpe Hargs. symmetry.
    apply train_same_batch_size with (total := VInt total); [done|].
    rewrite !train_batch_size_distributed by done.
    by rewrite Z.mul_comm, Z.div_mul.
Qed.

Lemma uneven_batch_truncates_witness :
  train_batch_size (VInt 2048) (Some (Demo.participant 3 2)) = Ok (VInt 682)
  ∧ 3 * 682 ≠ 2048.
Proof.
  destruct (uneven_batch_truncates 2048 (Demo.participant 3 2))
    as (Hb & Hne & _ & _).
  - simpl. lia.
  - simpl. vm_compute. discriminate.
  - split; [exact Hb|exact Hne].
Defined.

(** ** The optimizer and its scheduler *)

Lemma opt_factories_lookup (name : string) (cls : torch.optimizer_class) :
  _opt_factories !! name = Some cls ↔ (name, cls) ∈ optimizer_kinds.
Proof.
  unfold _opt_factories. fold optimizer_kinds. split.
  - apply elem_of_list_to_map_2.
  - apply elem_of_list_to_map_1. compute_done.
Qed.

Lemma opt_factories_unknown (name : string) :
  name ∉ optimizer_kinds.*1 → _opt_factories !! name = None.
Proof.
  intros Hn. unfold _opt_factories. fold optimizer_kinds.
  by apply not_elem_of_list_to_map_1.
Qed.

(** The schedule never raises with the parameters [train] fixes. *)
Lemma lr_schedule_fixed_ok (epoch : Z) :
  ∃ f, _lr_schedule epoch 5 (Some [20; 40]) = Ok f.
Proof.
  destruct (lr_schedule_total epoch 5 [20; 40]) as (k & Hk); [lia|]. eauto.
Qed.

Lemma make_optimizer_ok (cls : torch.optimizer_class)
    (parameters : gmap string tensor) (rate : Q) :
  (0 <= rate)%Q → parameters ≠ ∅ →
  torch.make_optimizer cls parameters rate
  = Ok {| torch.opt_class := cls; torch.opt_params := parameters;
          torch.initial_lr := rate; torch.lr := rate |}.
Proof.
  intros Hrate Hparams. unfold torch.make_optimizer.
  destruct (Qlt_le_dec rate 0) as [Hneg|_]; [lra|].
  by rewrite decide_False.
Qed.

(** The constructors reject a negative rate and a model without
    parameters. *)
Lemma make_optimizer_rejects (cls : torch.optimizer_class)
    (parameters : gmap string tensor) (rate : Q) :
  (rate < 0)%Q ∨ parameters = ∅ →
  ∃ msg, torch.make_optimizer cls parameters rate = Raise (ValueError msg).
Proof.
  intros Hbad. unfold torch.make_optimizer.
  destruct (Qlt_le_dec rate 0) as [Hneg|Hpos]; [by eexists|].
  destruct Hbad as [Hneg| ->]; [lra|]. rewrite decide_True by done.
  by eexists.
Qed.

Lemma train_optimizer_known (args : gmap string Py.value)
    (parameters : gmap string tensor) (name : string)
    (cls : torch.optimizer_class) (learning_rate : Py.value) (rate : Q) :
  args !! "optimizer" = Some (VStr name) →
  _opt_factories !! name = Some cls →
  args !! "learning_rate" = Some learning_rate →
  Py.as_number learning_rate = Ok rate →
  (0 <= rate)%Q → parameters ≠ ∅ →
  ∃ f0, _lr_schedule 0 5 (Some [20; 40]) = Ok f0 ∧
    train_optimizer args parameters =
      Ok {| torch.sched_opt :=
              {| torch.opt_class := cls; torch.opt_params := parameters;
                 torch.initial_lr := (rate * 16)%Q;
                 torch.lr := (rate * 16 * f0)%Q |};
            torch.base_lr := (rate * 16)%Q;
            torch.lr_lambda := λ epoch, _lr_schedule epoch 5 (Some [20; 40]);
            torch.last_epoch := 0 |}.
Proof.
  intros Hname Hcls Hlr Hrate Hpos Hparams.
  destruct (lr_schedule_fixed_ok 0) as (f0 & Hf0). exists f0. split; [done|].
  unfold train_optimizer, Py.getitem. rewrite Hname. simpl. rewrite Hcls.
  simpl. rewrite Hlr. simpl. rewrite Hrate. simpl.
  rewrite make_optimizer_ok by (done || lra). simpl.
  unfold torch.make_LambdaLR, torch.step. simpl.
  change (-1 + 1) with 0. by rewrite Hf0.
Qed.


Lemma train_optimizer_unknown (args : gmap string Py.value)
    (parameters : gmap string tensor) (name : Py.value) :
  args !! "optimizer" = Some name →
  (∀ s, name = VStr s → s ∉ optimizer_kinds.*1) →
  train_optimizer args parameters = Raise (KeyError name).
Proof.
  intros Hname Hunknown. unfold train_optimizer, Py.getitem.
  rewrite Hname. simpl. destruct name as [| | | |s]; try done.
  by rewrite (opt_factories_unknown s (Hunknown s eq_refl)).
Qed.

(** With an optimizer identifier outside the table, [train] raises before
    it reaches its loop, whatever the collaborators do. *)
Lemma train_fails_without_optimizer `{Collaborators} (fuel : nat)
    (fs : filesystem)
    (node_feature_mapping edge_feature_mapping : option feature_mapping)
    (dataloader_train : dataloader) (args : gmap string Py.value)
    (output_dir : option string) (dataloader_eval : option dataloader)
    (batches_per_epoch : option Z)
    (dist_config : option DistributedTrainingInfo) (name : Py.value) :
  args !! "optimizer" = Some name →
  (∀ s, name = VStr s → s ∉ optimizer_kinds.*1) →
  ∃ e, train fuel fs node_feature_mapping edge_feature_mapping
             dataloader_train args output_dir dataloader_eval
             batches_per_epoch dist_config = Some (Raise e).
Proof.
  intros Hname Hunknown. unfold train, train_setup.
  destruct (make_model_with_arguments _ _) as [model|e]; simpl; [|eauto].
  destruct (train_resume _ _ _) as [[[model' epoch] global_step]|e]; simpl;
    [|eauto].
  destruct (Py.getitem args "batch_size") as [total|e]; simpl; [|eauto].
  destruct (train_batch_size _ _) as [batch_size|e]; simpl; [|eauto].
  rewrite (train_optimizer_unknown args model' name Hname Hunknown). simpl.
  eauto.
Qed.

(** C6: an optimizer identifier outside [sgd], [adam], [adamax], [rms]
    makes the binding fail, with the [KeyError] of the table lookup, which
    is a configuration error, and then [train] fails before its loop
    whatever its collaborators; an identifier of the set yields an
    optimizer of the class the table gives, for a learning rate and a
    model that the class accepts: a number that is not negative, and at
    least one parameter. *)
Theorem optimizer_closed_set :
  (∀ (args : gmap string Py.value) (parameters : gmap string tensor)
     (name : string),
     args !! "optimizer" = Some (VStr name) →
     name ∉ ["sgd"; "adam"; "adamax"; "rms"] →
     train_optimizer args parameters = Raise (KeyError (VStr name))
     ∧ classify (KeyError (VStr name)) = ConfigurationError)
  ∧ (∀ (args : gmap string Py.value) (parameters : gmap string tensor)
       (name : string) (cls : torch.optimizer_class)
       (learning_rate : Py.value) (rate : Q),
       args !! "optimizer" = Some (VStr name) →
       (name, cls) ∈ [("sgd", torch.SGD); ("adam", torch.Adam);
                      ("adamax", torch.Adamax); ("rms", torch.RMSprop)] →
       args !! "learning_rate" = Some learning_rate →
       Py.as_number learning_rate = Ok rate →
       (0 <= rate)%Q → parameters ≠ ∅ →
       ∃ scheduler, train_optimizer args parameters = Ok scheduler
                    ∧ torch.opt_class (torch.sched_opt scheduler) = cls
                    ∧ torch.opt_params (torch.sched_opt scheduler)
                      = parameters)
  ∧ (∀ (C : Collaborators) (fuel : nat) (fs : filesystem)
       (node_feature_mapping edge_feature_mapping : option feature_mapping)
       (dataloader_train : dataloader) (args : gmap string Py.value)
       (output_dir : option string) (dataloader_eval : option dataloader)
       (batches_per_epoch : option Z)
       (dist_config : option DistributedTrainingInfo) (name : string),
       args !! "optimizer" = Some (VStr name) →
       name ∉ ["sgd"; "adam"; "adamax"; "rms"] →
       ∃ e, train fuel fs node_feature_mapping edge_feature_mapping
                  dataloader_train args output_dir dataloader_eval
                  batches_per_epoch dist_config = Some (Raise e)).
Proof.
  split; [|split]; cycle 2.
  - intros C fuel fs nfm efm dl args out dle bpe dc name Hname Hunknown.
    eapply train_fails_without_optimizer; [done|].
    intros s [= <-]. exact Hunknown.
  - intros args parameters name Hname Hunknown. split; [|done].
    apply train_optimizer_unknown; [done|].
    intros s [= <-]. exact Hunknown.
  - intros args parameters name cls learning_rate rate Hname Hcls Hlr Hrate
      Hpos Hparams.
    apply opt_factories_lookup in Hcls.
    destruct (train_optimizer_known args parameters name cls learning_rate
                rate Hname Hcls Hlr Hrate Hpos Hparams) as (f0 & _ & ->).
    eexists. split; [reflexivity|done].
Qed.

Lemma optimizer_closed_set_witness :
  train_optimizer (<["optimizer" := VStr "lbfgs"]> (parser_defaults "train.npy"))
                  Demo.network = Raise (KeyError (VStr "lbfgs"))
  ∧ ∃ scheduler,
      train_optimizer (<["optimizer" := VStr "rms"]> (parser_defaults "train.npy"))
                      Demo.network = Ok scheduler
      ∧ torch.opt_class (torch.sched_opt scheduler) = torch.RMSprop
      ∧ torch.opt_params (torch.sched_opt scheduler) = Demo.network.
Proof.
  split.
  - apply (proj1 optimizer_closed_set); [reflexivity|].
    compute_done.
  - apply (proj1 (proj2 optimizer_closed_set) _ _ "rms" torch.RMSprop
             (VFloat (2 # 100000)) (2 # 100000));
      [reflexivity| |reflexivity|reflexivity|by vm_compute|].
    + do 3 apply list_elem_of_further. apply list_elem_of_here.
    + apply map_non_empty_singleton.
Defined.







(** ** The coordinator loop *)

Section Loop.

Context `{Collaborators}.

Variables (args : gmap string Py.value) (num_epochs : Z).
Hypothesis Hnum : args !! "num_epochs" = Some (VInt num_epochs).

(** The loop exits at once, without a call, when [epoch >= num_epochs]. *)
Lemma train_loop_exit fuel h epoch global_step calls :
  num_epochs ≤ epoch →
  train_loop fuel args h epoch global_step calls
  = Some (Ok {| out_harness := h; out_epoch := epoch;
                out_global_step := global_step; out_calls := calls |}).
Proof.
  intros Hge. destruct fuel; simpl; unfold Py.getitem; rewrite Hnum; simpl;
    by destruct (decide (epoch < num_epochs)); [lia|].
Qed.

(** The loop calls the harness once more when [epoch < num_epochs]. *)
Lemma train_loop_iterate fuel h epoch global_step calls :
  epoch < num_epochs →
  train_loop (S fuel) args h epoch global_step calls
  = match train_epochs h epoch global_step with
    | Raise e => Some (Raise e)
    | Ok (h', (epoch', global_step')) =>
        train_loop fuel args h' epoch' global_step'
                   (calls ++ [(epoch, global_step)])
    end.
Proof.
  intros Hlt. simpl. unfold Py.getitem. rewrite Hnum. simpl.
  by destruct (decide (epoch < num_epochs)); [|lia].
Qed.

Lemma train_loop_starved h epoch global_step calls :
  epoch < num_epochs →
  train_loop 0 args h epoch global_step calls = None.
Proof.
  intros Hlt. simpl. unfold Py.getitem. rewrite Hnum. simpl.
  by destruct (decide (epoch < num_epochs)); [|lia].
Qed.

(** From epoch [epoch], with [n] epochs left, the loop makes exactly
    [n] calls, at the epochs [epoch], ..., [epoch + n - 1]. *)
Lemma train_loop_runs (n : nat) h epoch global_step calls :
  advances_epoch →
  epoch + Z.of_nat n = num_epochs →
  ∃ t, (∀ fuel, (n ≤ fuel)%nat →
          train_loop fuel args h epoch global_step calls = Some (Ok t))
       ∧ (∀ fuel, (fuel < n)%nat →
            train_loop fuel args h epoch global_step calls = None)
       ∧ out_epoch t = num_epochs
       ∧ length (out_calls t) = (length calls + n)%nat
       ∧ (out_calls t).*1 = calls.*1 ++ seqZ epoch (Z.of_nat n).
Proof.
  intros Hadv. revert h epoch global_step calls.
  induction n as [|n IH]; intros h epoch global_step calls Hleft.
  - eexists. split; [intros fuel _; apply train_loop_exit; lia|].
    split; [intros fuel ?; lia|]. simpl.
    split; [lia|]. split; [lia|]. by rewrite app_nil_r.
  - destruct (Hadv h epoch global_step) as (h' & global_step' & Hcall).
    destruct (IH h' (epoch + 1) global_step'
                (calls ++ [(epoch, global_step)])) as
      (t & Hrun & Hstarve & Hepoch & Hlen & Hcalls); [lia|].
    exists t. split; [|split; [|split; [done|split]]].
    + intros [|fuel] Hfuel; [lia|].
      rewrite train_loop_iterate, Hcall by lia. apply Hrun. lia.
    + intros [|fuel] Hfuel; [apply train_loop_starved; lia|].
      rewrite train_loop_iterate, Hcall by lia. apply Hstarve. lia.
    + rewrite Hlen, length_app. simpl. lia.
    + rewrite Hcalls, fmap_app, <- app_assoc. simpl. f_equal.
      rewrite (seqZ_cons epoch) by lia. do 2 f_equal; lia.
Qed.

End Loop.

(** C1: for [num_epochs = N >= 0], a loop started at epoch 0 over a
    harness whose every call advances the epoch by exactly one ends (any
    bound of at least [N] iterations suffices, no smaller one does), has
    then made exactly [N] calls, at the epochs 0, ..., [N - 1], and ends
    with [epoch = N].  In general the loop exits without a further call
    when [epoch >= num_epochs] and makes a further call when [epoch <
    num_epochs]. *)
Theorem coordinator_loop_terminates `{Collaborators}
    (args : gmap string Py.value) (N : Z) (h : harness) (global_step : Z) :
  args !! "num_epochs" = Some (VInt N) →
  0 ≤ N →
  advances_epoch →
  (∃ t, (∀ fuel, (Z.to_nat N ≤ fuel)%nat →
           train_loop fuel args h 0 global_step [] = Some (Ok t))
        ∧ (∀ fuel, (fuel < Z.to_nat N)%nat →
             train_loop fuel args h 0 global_step [] = None)
        ∧ out_epoch t = N
        ∧ length (out_calls t) = Z.to_nat N
        ∧ (out_calls t).*1 = seqZ 0 N)
  ∧ (∀ fuel h epoch global_step calls,
       N ≤ epoch →
       train_loop fuel args h epoch global_step calls
       = Some (Ok {| out_harness := h; out_epoch := epoch;
                     out_global_step := global_step; out_calls := calls |}))
  ∧ (∀ fuel h epoch global_step calls,
       epoch < N →
       train_loop (S fuel) args h epoch global_step calls
       = match train_epochs h epoch global_step with
         | Raise e => Some (Raise e)
         | Ok (h', (epoch', global_step')) =>
             train_loop fuel args h' epoch' global_step'
                        (calls ++ [(epoch, global_step)])
         end).
Proof.
  intros Hnum HN Hadv. split; [|split].
  - destruct (train_loop_runs args N Hnum (Z.to_nat N) h 0 global_step [] Hadv)
      as (t & Hrun & Hstarve & Hepoch & Hlen & Hcalls); [lia|].
    exists t. rewrite Z2Nat.id in Hcalls by lia. by repeat split.
  - intros. by apply (train_loop_exit args N Hnum).
  - intros. by apply (train_loop_iterate args N Hnum).
Qed.

Lemma coordinator_loop_terminates_witness :
  ∃ t, @train_loop Demo.collaborators 3
         (<["num_epochs" := VInt 3]> (parser_defaults "train.npy"))
         Demo.config 0 0 [] = Some (Ok t)
       ∧ out_epoch t = 3 ∧ length (out_calls t) = 3%nat.
Proof.
  destruct (@coordinator_loop_terminates Demo.collaborators
              (<["num_epochs" := VInt 3]> (parser_defaults "train.npy")) 3
              Demo.config 0)
    as ((t & Hrun & _ & Hepoch & Hlen & _) & _).
  - reflexivity.
  - lia.
  - intros h e g. eexists _, _. reflexivity.
  - exists t. split; [apply (Hrun 3%nat); simpl; lia|].
    split; [exact Hepoch|exact Hlen].
Defined.

(** ** Resuming from a checkpoint *)


Lemma str_drop_length (n : nat) (s : string) :
  String.length (Py.str_drop n s) = (String.length s - n)%nat.
Proof.
  revert s. induction n as [|n IH]; intros s.
  - simpl. lia.
  - destruct s as [|c s]; [done|]. simpl. apply IH.
Qed.

(** The loop of lines 78-79 from any starting dict: the later entries of
    the saved dict take precedence over the earlier ones, and all of them
    over what the dict held. *)
Lemma strip_fold (new_state_dict : gmap string tensor)
    (saved : list (string * tensor)) :
  foldl (λ d kv, <[Py.str_drop 7 kv.1 := kv.2]> d) new_state_dict saved
  = list_to_map (reverse (stripped <$> saved)) ∪ new_state_dict.
Proof.
  revert new_state_dict. induction saved as [|kv saved IH]; intros d; simpl.
  - by rewrite (left_id_L ∅ (∪)).
  - rewrite IH, reverse_cons, list_to_map_app. simpl.
    rewrite <- (assoc_L (∪)). f_equal.
    by rewrite insert_empty, <- insert_union_singleton_l.
Qed.

Lemma strip_module_prefix_list (saved : list (string * tensor)) :
  strip_module_prefix saved = list_to_map (reverse (stripped <$> saved)).
Proof.
  unfold strip_module_prefix. by rewrite strip_fold, (right_id_L ∅ (∪)).
Qed.

(** The keys handed to the model are the saved keys, each cut by seven
    characters. *)
Lemma strip_module_prefix_dom (saved : list (string * tensor)) :
  dom (strip_module_prefix saved) = list_to_set (Py.str_drop 7 <$> saved.*1).
Proof.
  rewrite strip_module_prefix_list, dom_list_to_map_L.
  apply set_eq. intros k.
  rewrite !elem_of_list_to_set, fmap_reverse, elem_of_reverse.
  by rewrite <- !list_fmap_compose.
Qed.

Lemma strip_module_prefix_lookup (saved : list (string * tensor))
    (k : string) (v : tensor) :
  NoDup (Py.str_drop 7 <$> saved.*1) → (k, v) ∈ saved →
  strip_module_prefix saved !! Py.str_drop 7 k = Some v.
Proof.
  intros Hnd Hin. rewrite strip_module_prefix_list.
  apply elem_of_list_to_map_1.
  - rewrite fmap_reverse, reverse_Permutation, <- list_fmap_compose.
    by rewrite <- list_fmap_compose in Hnd.
  - rewrite elem_of_reverse. apply list_elem_of_fmap. by exists (k, v).
Qed.




(** C10 fails for a checkpoint without parameters, and for one whose only
    key is the empty string: neither has a key that starts with the
    prefix, and both keep their key set. *)
Lemma unprefixed_keys_may_stay :
  ¬ unprefixed_keys_change
  ∧ dom (strip_module_prefix []) = list_to_set ([] : list (string * tensor)).*1
  ∧ Py.startswith "module." "" = false
  ∧ dom (strip_module_prefix [("", {| shape := []; storage := [0] |})])
    = list_to_set [("", {| shape := []; storage := [0] |})].*1.
Proof.
  assert (He : dom (strip_module_prefix [])
               = list_to_set ([] : list (string * tensor)).*1).
  { by rewrite strip_module_prefix_dom. }
  split; [|split; [exact He|split; [done|]]].
  - intros Hclaim. apply (Hclaim []); [constructor|constructor|exact He].
  - by rewrite strip_module_prefix_dom.
Qed.

(** Among finitely many keys, not all empty, one is longest, and it is
    not empty. *)
Lemma longest_key (keys : list string) :
  (∃ k, k ∈ keys ∧ k ≠ "") →
  ∃ k, k ∈ keys ∧ k ≠ ""
       ∧ ∀ k', k' ∈ keys → (String.length k' ≤ String.length k)%nat.
Proof.
  intros (k1 & Hk1 & Hne).
  assert (Hmax : ∃ k, k ∈ keys
            ∧ ∀ k', k' ∈ keys → (String.length k' ≤ String.length k)%nat).
  { clear Hne. revert k1 Hk1.
    induction keys as [|k0 keys IH]; intros k1 Hk1.
    - by apply elem_of_nil in Hk1.
    - destruct keys as [|k2 keys].
      + exists k0. split; [apply list_elem_of_here|].
        intros k' [->|Hk']%elem_of_cons; [done|by apply elem_of_nil in Hk'].
      + destruct (IH k2) as (m & Hm & Hmax); [apply list_elem_of_here|].
        destruct (decide (String.length k0 ≤ String.length m)%nat).
        * exists m. split; [by apply list_elem_of_further|].
          intros k' [->|Hk']%elem_of_cons; [done|by apply Hmax].
        * exists k0. split; [apply list_elem_of_here|].
          intros k' [->|Hk']%elem_of_cons; [done|].
          specialize (Hmax k' Hk'). lia. }
  destruct Hmax as (k & Hk & Hmax). exists k. split; [done|]. split; [|done].
  intros ->. specialize (Hmax k1 Hk1). destruct k1; [done|]. simpl in Hmax. lia.
Qed.

(** Cutting every key changes the key set as soon as one key is not
    empty: the longest key cannot be the cut of another one. *)
Lemma strip_module_prefix_changes_keys (saved : list (string * tensor)) :
  (∃ k, k ∈ saved.*1 ∧ k ≠ "") →
  dom (strip_module_prefix saved) ≠ list_to_set saved.*1.
Proof.
  intros Hsome Heq.
  destruct (longest_key saved.*1 Hsome) as (k & Hk & Hne & Hmax).
  assert (Hin : k ∈ dom (strip_module_prefix saved)).
  { rewrite Heq. by apply elem_of_list_to_set. }
  rewrite strip_module_prefix_dom, elem_of_list_to_set in Hin.
  apply list_elem_of_fmap in Hin as (k' & -> & Hk').
  specialize (Hmax k' Hk'). rewrite str_drop_length in Hmax.
  destruct k' as [|c k']; [done|]. simpl in Hmax.
  destruct (Py.str_drop 7 (String c k')) eqn:Hd; [done|].
  pose proof (str_drop_length 7 (String c k')) as Hlen.
  rewrite Hd in Hlen. simpl in Hlen. lia.
Qed.


(** C10, amended: at resume every key of the saved state dict loses its
    first seven characters, whatever they are; an entry whose cut key is
    shared with no other entry keeps its value under the cut key; and for
    every checkpoint with at least one non-empty key, prefixed or not, the
    keys handed to the model are not the saved keys. *)
Theorem resume_cuts_every_key :
  (∀ saved : list (string * tensor),
     dom (strip_module_prefix saved)
     = list_to_set (Py.str_drop 7 <$> saved.*1))
  ∧ (∀ (saved : list (string * tensor)) (k : string) (v : tensor),
       NoDup (Py.str_drop 7 <$> saved.*1) → (k, v) ∈ saved →
       strip_module_prefix saved !! Py.str_drop 7 k = Some v)
  ∧ (∀ saved : list (string * tensor),
       (∃ k, k ∈ saved.*1 ∧ k ≠ "") →
       dom (strip_module_prefix saved) ≠ list_to_set saved.*1).
Proof.
  split; [apply strip_module_prefix_dom|].
  split; [apply strip_module_prefix_lookup|].
  apply strip_module_prefix_changes_keys.
Qed.

Lemma resume_cuts_every_key_witness :
  strip_module_prefix
    [("encoder.weight", {| shape := [1%nat]; storage := [3] |})]
  !! ".weight" = Some {| shape := [1%nat]; storage := [3] |}
  ∧ dom (strip_module_prefix
           [("encoder.weight", {| shape := [1%nat]; storage := [3] |})])
    ≠ list_to_set
        [("encoder.weight", {| shape := [1%nat]; storage := [3] |})].*1.
Proof.
  destruct resume_cuts_every_key as (_ & Hlookup & Hdiffer).
  split.
  - change ".weight" with (Py.str_drop 7 "encoder.weight").
    apply (Hlookup [("encoder.weight", {| shape := [1%nat]; storage := [3] |})]
             "encoder.weight").
    + simpl. apply NoDup_singleton.
    + apply list_elem_of_here.
  - apply Hdiffer. exists "encoder.weight". split; [apply list_elem_of_here|done].
Defined.




(** ** The run driver and the configuration record *)

Lemma resolve_path_key_lookup (env : environment)
    (args args' : gmap string Py.value) (key k : string) :
  resolve_path_key env args key = Ok args' →
  args' !! k = if decide (k = key) then resolved env <$> args !! k
               else args !! k.
Proof.
  unfold resolve_path_key, Py.getitem. intros Hres.
  destruct (args !! key) as [v|] eqn:Hv; [|done]. simpl in Hres.
  destruct v; try discriminate Hres; injection Hres as <-;
    destruct (decide (k = key)) as [->|Hne]; try done.
  - by rewrite Hv.
  - by rewrite lookup_insert_eq, Hv.
  - by rewrite lookup_insert_ne.
Qed.

(** After the loop every listed option holds its resolved value and every
    other option is untouched. *)
Lemma resolve_paths_lookup (env : environment) (keys : list string)
    (args args' : gmap string Py.value) (k : string) :
  NoDup keys →
  resolve_paths env keys args = Ok args' →
  args' !! k = if decide (k ∈ keys) then resolved env <$> args !! k
               else args !! k.
Proof.
  intros Hnd. revert args. induction Hnd as [|key keys Hnotin Hnd IH];
    intros args Hres; simpl in Hres.
  - injection Hres as <-. by rewrite decide_False by apply not_elem_of_nil.
  - destruct (resolve_path_key env args key) as [args1|e] eqn:Hkey; [|done].
    simpl in Hres. rewrite (IH _ Hres).
    rewrite (resolve_path_key_lookup _ _ _ _ k Hkey).
    destruct (decide (k = key)) as [->|Hne].
    + rewrite decide_False by done. rewrite decide_True; [done|].
      apply list_elem_of_here.
    + destruct (decide (k ∈ keys)) as [Hin|Hnin].
      * rewrite decide_True; [done|]. by apply list_elem_of_further.
      * rewrite decide_False; [done|]. by intros [->|?]%elem_of_cons.
Qed.

Lemma ARGS_PATH_KEYS_NoDup : NoDup _ARGS_PATH_KEYS.
Proof. compute_done. Qed.

(** The loop as a function to its result is the loop on the dict, with
    the dict of a failed loop forgotten. *)
Lemma resolve_paths_state_result (env : environment) (keys : list string)
    (args : gmap string Py.value) :
  resolve_paths env keys args
  = match resolve_paths_state env keys args with
    | (args', Ok _) => Ok args'
    | (_, Raise e) => Raise e
    end.
Proof.
  revert args. induction keys as [|key keys IH]; intros args; simpl; [done|].
  destruct (resolve_path_key env args key) as [args1|e]; simpl; [|done].
  apply IH.
Qed.


Lemma makedirs_spec (cwd : string) (fs fs' : filesystem) (name : string)
    (r : result unit) :
  os.makedirs cwd fs name = (fs', r) →
  match r with
  | Ok _ =>
      os.exists_ fs (os.realpath cwd name) = false
      ∧ dirs fs' = list_to_set (os.ancestors (os.components cwd name)) ∪ dirs fs
      ∧ files fs' = files fs
  | Raise _ => fs' = fs
  end.
Proof.
  unfold os.makedirs. destruct (os.exists_ fs _) eqn:Hex.
  - by intros [= <- <-].
  - destruct (bool_decide _); by intros [= <- <-].
Qed.

Lemma write_file_spec (cwd : string) (fs fs' : filesystem) (name : string)
    (content : file) (r : result unit) :
  os.write_file cwd fs name content = (fs', r) →
  match r with
  | Ok _ => dirs fs' = dirs fs
            ∧ files fs' = <[os.realpath cwd name := content]> (files fs)
  | Raise _ => fs' = fs
  end.
Proof.
  unfold os.write_file. destruct (os.isdir fs _); [by intros [= <- <-]|].
  destruct (bool_decide _); [by intros [= <- <-]|].
  destruct (negb _); by intros [= <- <-].
Qed.

(** The leader creates the directory [<output_dir>/<MMDD>/time_<HHMMSS>],
    which did not exist, with the directories on the way to it, and
    writes the configuration it is given to [args.txt] in it; another
    participant changes nothing.  A step that raises has written no
    file. *)
Lemma persist_args_spec (env : environment) (fs fs' : filesystem)
    (args : gmap string Py.value)
    (distributed_config : option DistributedTrainingInfo)
    (r : result (option string)) :
  persist_args env fs args distributed_config = (fs', r) →
  match r with
  | Ok output_dir =>
      if distributed_utils.is_leader distributed_config then
        ∃ v root,
          args !! "output_dir" = Some v ∧ format_path v = Ok root
          ∧ (let d := root +:+ "/" +:+ mmdd env +:+ "/time_" +:+ hhmmss env in
             output_dir = Some d
             ∧ os.exists_ fs (os.realpath (cwd env) d) = false
             ∧ dirs fs'
               = list_to_set (os.ancestors (os.components (cwd env) d))
                 ∪ dirs fs
             ∧ files fs'
               = <[os.realpath (cwd env) (PosixPath.join d "args.txt")
                   := FJson args]> (files fs))
      else output_dir = None ∧ fs' = fs
  | Raise _ => files fs' = files fs ∧ dirs fs ⊆ dirs fs'
  end.
Proof.
  unfold persist_args. intros Hp.
  destruct (distributed_utils.is_leader distributed_config);
    [|by injection Hp as <- <-].
  unfold Py.getitem in Hp.
  destruct (args !! "output_dir") as [v|] eqn:Hv; simpl in Hp;
    [|by injection Hp as <- <-].
  destruct (format_path v) as [root|e] eqn:Hroot; simpl in Hp;
    [|by injection Hp as <- <-].
  destruct (os.makedirs _ _ _) as [fs1 [[]|e]] eqn:Hmk;
    apply makedirs_spec in Hmk; [|by injection Hp as <- <-; subst].
  destruct Hmk as (Hfresh & Hdirs & Hfiles).
  destruct (os.write_file _ _ _ _) as [fs2 [[]|e]] eqn:Hw;
    apply write_file_spec in Hw; injection Hp as <- <-.
  - destruct Hw as [Hdirs2 Hfiles2]. exists v, root.
    split; [done|]. split; [done|]. simpl. split; [done|]. split; [done|].
    split; [congruence|]. by rewrite Hfiles2, Hfiles.
  - subst fs2. split; [done|]. rewrite Hdirs. apply union_subseteq_r.
Qed.

Section RunProperties.

Context `{Collaborators}.

(** The steps of [run_startup]. *)
Lemma run_startup_inversion (env : environment) (fs fs' : filesystem)
    (args args' : gmap string Py.value)
    (distributed_config : option DistributedTrainingInfo)
    (r : result startup) :
  run_startup env fs args distributed_config = (args', fs', r) →
  (args' = args ∧ fs' = fs ∧ ∃ e, r = Raise e)
  ∨ ∃ r_paths,
      resolve_paths_state env _ARGS_PATH_KEYS args = (args', r_paths)
      ∧ match r_paths with
        | Raise e => fs' = fs ∧ r = Raise e
        | Ok _ =>
            (fs' = fs ∧ ∃ e, r = Raise e)
            ∨ ∃ r_persist,
                persist_args env fs args' distributed_config
                = (fs', r_persist)
                ∧ match r_persist with
                  | Raise e => r = Raise e
                  | Ok output_dir => ∃ data, r = Ok (output_dir, data)
                  end
        end.
Proof.
  unfold run_startup. intros Hrun.
  destruct (Py.getitem args "seed" ≫= set_seeds) as [[]|e].
  - right. destruct (resolve_paths_state _ _ _) as [args1 [[]|e]].
    + destruct (initialize_datasets args1 distributed_config) as [data|e].
      * destruct (persist_args _ _ _ _) as [fs1 [output_dir|e]] eqn:Hp;
          injection Hrun as <- <- <-; exists (Ok ()); (split; [done|]);
          right; eexists; (split; [exact Hp|]); [by exists data|done].
      * injection Hrun as <- <- <-. exists (Ok ()). split; [done|].
        left. split; [done|]. by exists e.
    + injection Hrun as <- <- <-. by exists (Raise e).
  - left. injection Hrun as <- <- <-. split; [done|]. split; [done|].
    by exists e.
Qed.

End RunProperties.




(** * Further properties of the code *)

(** ** The schedule: failure, ramp, steps and plateaus *)





(** X1: on floats the schedule fails in two ways only: with
    [ZeroDivisionError], exactly when [warmup_epochs] is 0, and with
    [OverflowError], when the quotient [(epoch + 1) / warmup_epochs] is
    too large for a float, which needs [epoch + 1] beyond [2 ** 1023] in
    magnitude; otherwise it returns, whatever the thresholds, ordered or
    not, given or not. *)
Theorem lr_schedule_binary64_failure (epoch warmup_epochs : Z)
    (decay_epochs : option (list Z)) :
  match _lr_schedule_binary64 epoch warmup_epochs decay_epochs with
  | Raise e =>
      (warmup_epochs = 0 ∧ e = ZeroDivisionError)
      ∨ (warmup_epochs ≠ 0 ∧ e = OverflowError
         ∧ 2 ^ 1023 < Z.abs (epoch + 1))
  | Ok _ => warmup_epochs ≠ 0
  end.
Proof.
  unfold _lr_schedule_binary64.
  destruct (decide (warmup_epochs = 0)) as [->|Hw].
  { unfold B64.truediv. rewrite decide_True by done. simpl. by left. }
  destruct (B64.truediv (epoch + 1) warmup_epochs) as [q|e] eqn:Hq; simpl.
  - destruct (bisect_loop_total (default [] decay_epochs) epoch 0
                (length (default [] decay_epochs))) as (k & Hk & _); [lia|].
    unfold Py.bisect_right. rewrite Hk. simpl.
    by destruct (pow_unit B64.tenth k tenth_unit) as [-> _].
  - right. split; [done|].
    destruct (decide (Z.abs (epoch + 1) ≤ 2 ^ 1023)) as [Hsmall|Hbig].
    + by rewrite truediv_in_range in Hq.
    + rewrite truediv_nonzero in Hq by done.
      destruct (B64.overflows _); [|done]. injection Hq as <-.
      split; [done|lia].
Qed.







(** ** The participant's batch size *)

(** X7: in a distributed run over an integer total, the batch size
    computation fails only for a world size of 0, with
    [ZeroDivisionError]; otherwise the participants together cover the
    total exactly if and only if the world size divides it, and for a
    positive world size they miss fewer than [world_size] examples. *)
Theorem batch_size_cover (total : Z) (c : DistributedTrainingInfo) :
  match train_batch_size (VInt total) (Some c) with
  | Raise e => world_size c = 0 ∧ e = ZeroDivisionError
  | Ok v =>
      world_size c ≠ 0
      ∧ ∃ b, v = VInt b
             ∧ (world_size c * b = total ↔ total `mod` world_size c = 0)
             ∧ (0 < world_size c →
                total - world_size c < world_size c * b ≤ total)
  end.
Proof.
  unfold train_batch_size, Py.floordiv. simpl.
  destruct (decide (world_size c = 0)) as [Hz|Hnz]; simpl; [done|].
  split; [done|]. exists (total / world_size c). split; [done|].
  pose proof (Z.div_mod total (world_size c) Hnz). split; [lia|].
  intros Hpos. pose proof (Z.mod_pos_bound total (world_size c) Hpos). lia.
Qed.

(** ** The options [train] needs *)

(** X8: [train] reads eight options by subscript; when any one of them is
    missing from [args] it raises instead of training, whatever its
    collaborators do and whatever the other options hold. *)
Theorem train_requires_keys `{Collaborators} (fuel : nat) (fs : filesystem)
    (node_feature_mapping edge_feature_mapping : option feature_mapping)
    (dataloader_train : dataloader) (args : gmap string Py.value)
    (output_dir : option string) (dataloader_eval : option dataloader)
    (batches_per_epoch : option Z)
    (dist_config : option DistributedTrainingInfo) (key : string) :
  key ∈ train_keys → args !! key = None →
  ∃ e, train fuel fs node_feature_mapping edge_feature_mapping
             dataloader_train args output_dir dataloader_eval
             batches_per_epoch dist_config = Some (Raise e).
Proof.
  intros Hkey Hmissing.
  assert (Hget : Py.getitem args key = Raise (KeyError (VStr key))).
  { unfold Py.getitem. by rewrite Hmissing. }
  unfold train, train_setup, make_model_with_arguments.
  destruct (Py.getitem args "hidden_size") as [hidden_size|e] eqn:Hhs;
    simpl; [|eauto].
  destruct (make_graph_model _ _ _ _ _ _) as [model|e]; simpl; [|eauto].
  unfold train_resume.
  destruct (Py.getitem args "model_state") as [model_state|e] eqn:Hms;
    simpl; [|eauto].
  destruct (if Py.truthy model_state then _ else _)
    as [[[model' epoch] global_step]|e]; simpl; [|eauto].
  destruct (Py.getitem args "batch_size") as [total|e] eqn:Hbs; simpl;
    [|eauto].
  destruct (train_batch_size total dist_config) as [batch_size|e]; simpl;
    [|eauto].
  unfold train_optimizer.
  destruct (Py.getitem args "optimizer") as [name|e] eqn:Hopt; simpl;
    [|eauto].
  destruct (match name with VStr s => _ | _ => _ end) as [factory|e]; simpl;
    [|eauto].
  destruct (Py.getitem args "learning_rate") as [lr|e] eqn:Hlr; simpl;
    [|eauto].
  destruct (Py.as_number lr) as [rate|e]; simpl; [|eauto].
  destruct (torch.make_optimizer _ _ _) as [opt|e]; simpl; [|eauto].
  destruct (torch.make_LambdaLR _ _) as [scheduler|e]; simpl; [|eauto].
  destruct (if distributed_utils.is_leader dist_config then _ else _)
    as [[tb_main tb_eval]|e]; simpl; [|eauto].
  destruct (Py.getitem args "profile") as [profile|e] eqn:Hprof; simpl;
    [|eauto].
  destruct (Py.getitem args "num_prop_rounds") as [depth|e] eqn:Hdepth;
    simpl; [|eauto].
  assert (Hne : Py.getitem args "num_epochs" = Raise (KeyError (VStr "num_epochs"))).
  { unfold train_keys in Hkey.
    repeat (apply elem_of_cons in Hkey as [->|Hkey]; [congruence|]).
    by apply elem_of_nil in Hkey. }
  destruct fuel; simpl; rewrite Hne; simpl; eauto.
Qed.

Lemma train_requires_keys_witness :
  ∃ e, @train Demo.collaborators 5 Demo.empty_fs None None tt
         (delete "profile" (parser_defaults "train.npy")) (Some "/out") None
         (Some 50) None = Some (Raise e).
Proof.
  apply (@train_requires_keys Demo.collaborators 5 Demo.empty_fs None None tt
           (delete "profile" (parser_defaults "train.npy")) (Some "/out")
           None (Some 50) None "profile").
  - unfold train_keys. do 5 apply list_elem_of_further. apply list_elem_of_here.
  - apply lookup_delete_eq.
Defined.

(** ** What cutting the keys loses *)

Lemma str_drop_short (n : nat) (k : string) :
  (String.length k ≤ n)%nat → Py.str_drop n k = "".
Proof.
  revert k. induction n as [|n IH]; intros [|c k] Hlen; simpl in *;
    try done; [lia|]. apply IH. lia.
Qed.

(** X9: a saved state dict whose keys all have at most seven characters
    (["weight"], ["bias"], ...) is cut down to a single entry: the empty
    key, holding the value of the last saved entry. *)
Theorem strip_short_keys (saved : list (string * tensor))
    (kv : string * tensor) :
  last saved = Some kv →
  Forall (λ k, (String.length k ≤ 7)%nat) saved.*1 →
  strip_module_prefix saved = {[ "" := kv.2 ]}.
Proof.
  intros [l ->]%last_Some Hshort.
  rewrite fmap_app, Forall_app in Hshort. destruct Hshort as [Hl Hkv].
  simpl in Hkv. apply (proj1 (Forall_singleton _ _)) in Hkv.
  assert (Hsnoc : strip_module_prefix (l ++ [kv])
                  = <[Py.str_drop 7 kv.1 := kv.2]> (strip_module_prefix l)).
  { unfold strip_module_prefix. by rewrite foldl_app. }
  rewrite Hsnoc, (str_drop_short 7 kv.1 Hkv).
  apply map_eq. intros k. destruct (decide (k = "")) as [->|Hne].
  - by rewrite lookup_insert_eq, lookup_singleton_eq.
  - rewrite lookup_insert_ne, lookup_singleton_ne by done.
    apply not_elem_of_dom. rewrite strip_module_prefix_dom.
    rewrite elem_of_list_to_set, list_elem_of_fmap.
    intros (k' & -> & Hk'). rewrite Forall_forall in Hl.
    by rewrite (str_drop_short 7 k' (Hl k' Hk')) in Hne.
Qed.

Lemma strip_short_keys_witness :
  strip_module_prefix
    [("weight", {| shape := [2%nat]; storage := [1; 2] |});
     ("bias", {| shape := [1%nat]; storage := [3] |})]
  = {[ "" := {| shape := [1%nat]; storage := [3] |} ]}.
Proof.
  apply (strip_short_keys _ ("bias", {| shape := [1%nat]; storage := [3] |})).
  - reflexivity.
  - repeat constructor; simpl; lia.
Defined.

Lemma list_to_map_size_le (l : list (string * tensor)) :
  (size (list_to_map l : gmap string tensor) ≤ length l)%nat.
Proof.
  induction l as [|[k v] l IH]; simpl; [by rewrite map_size_empty|].
  destruct ((list_to_map l : gmap string tensor) !! k) as [w|] eqn:Hk.
  - rewrite map_size_insert, Hk. simpl. lia.
  - rewrite map_size_insert, Hk. simpl. lia.
Qed.

Lemma list_to_map_size_NoDup (l : list (string * tensor)) :
  size (list_to_map l : gmap string tensor) = length l → NoDup l.*1.
Proof.
  induction l as [|[k v] l IH]; simpl; [constructor|]. intros Hsize.
  pose proof (list_to_map_size_le l) as Hle.
  destruct ((list_to_map l : gmap string tensor) !! k) as [w|] eqn:Hk.
  - rewrite map_size_insert, Hk in Hsize. simpl in Hsize. lia.
  - rewrite map_size_insert, Hk in Hsize. simpl in Hsize.
    constructor; [by apply not_elem_of_list_to_map_2|]. apply IH. lia.
Qed.

(** X10: the dict handed to the model never has more entries than the
    saved one, and it has as many exactly when no two saved keys agree
    after their first seven characters: otherwise parameters are lost. *)
Theorem strip_loses_colliding_keys (saved : list (string * tensor)) :
  (size (strip_module_prefix saved) ≤ length saved)%nat
  ∧ (size (strip_module_prefix saved) = length saved
     ↔ NoDup (Py.str_drop 7 <$> saved.*1)).
Proof.
  rewrite strip_module_prefix_list.
  assert (Hlen : length (reverse (stripped <$> saved)) = length saved).
  { by rewrite length_reverse, length_fmap. }
  assert (Hkeys : (reverse (stripped <$> saved)).*1
                  ≡ₚ Py.str_drop 7 <$> saved.*1).
  { rewrite fmap_reverse, reverse_Permutation.
    by rewrite <- !list_fmap_compose. }
  split; [|split].
  - rewrite <- Hlen. apply list_to_map_size_le.
  - intros Hsize. rewrite <- Hkeys. apply list_to_map_size_NoDup. congruence.
  - intros Hnd. rewrite <- Hlen. apply map_size_list_to_map. by rewrite Hkeys.
Qed.

(** ** When a run resumes *)

(** X11: [train] resumes successfully in exactly two cases: no checkpoint
    path is given ([None] or the empty string), and it starts from the
    built model at (0, 0); or the path names a checkpoint whose keys, cut
    by seven characters, are exactly the model's parameter names with the
    model's shapes, and it starts from the checkpoint's counters with
    every parameter taken from the checkpoint. *)
Theorem train_resume_succeeds_iff (fs : filesystem)
    (args : gmap string Py.value) (model model' : gmap string tensor)
    (epoch global_step : Z) :
  train_resume fs args model = Ok (model', epoch, global_step)
  ↔ (∃ model_state, args !! "model_state" = Some model_state
       ∧ Py.truthy model_state = false
       ∧ model' = model ∧ epoch = 0 ∧ global_step = 0)
    ∨ (∃ path state,
         args !! "model_state" = Some (VStr path) ∧ path ≠ ""
         ∧ files fs !! path = Some (FCheckpoint state)
         ∧ model' = strip_module_prefix (ck_model state)
         ∧ dom model' = dom model
         ∧ torch.same_shapes model model'
         ∧ epoch = ck_epoch state ∧ global_step = ck_global_step state).
Proof.
  unfold train_resume, Py.getitem. split.
  - destruct (args !! "model_state") as [model_state|]; [|done]. simpl.
    destruct (Py.truthy model_state) eqn:Htruthy.
    + intros Hres. right.
      destruct model_state as [| | | |path]; try done. simpl in Hres.
      destruct (files fs !! path) as [[state|]|] eqn:Hfile; try done.
      simpl in Hres. unfold torch.load_state_dict in Hres.
      destruct (decide (dom _ = dom model)) as [Hdom|]; [|done].
      destruct (decide (torch.same_shapes model _)) as [Hshapes|]; [|done].
      simpl in Hres. injection Hres as <- <- <-.
      exists path, state. split; [done|]. split; [|done].
      intros ->. done.
    + intros [= <- <- <-]. left. by exists model_state.
  - intros [(model_state & -> & Hfalsy & -> & -> & ->)
           |(path & state & -> & Hpath & Hfile & -> & Hdom & Hshapes & -> & ->)].
    + simpl. by rewrite Hfalsy.
    + simpl. rewrite bool_decide_eq_false_2 by done. simpl.
      rewrite Hfile. simpl. unfold torch.load_state_dict.
      rewrite decide_True by done. by rewrite decide_True by done.
Qed.

(** X12: a checkpoint whose keys are exactly the model's parameter names,
    as an unwrapped model's own state dict has them, is rejected at resume
    with the [RuntimeError] of [load_state_dict] as soon as one name is
    not empty. *)
Theorem train_resume_rejects_own_names (fs : filesystem)
    (args : gmap string Py.value) (model : gmap string tensor)
    (path : string) (state : checkpoint) :
  args !! "model_state" = Some (VStr path) → path ≠ "" →
  files fs !! path = Some (FCheckpoint state) →
  list_to_set (ck_model state).*1 = dom model →
  (∃ k, k ∈ dom model ∧ k ≠ "") →
  ∃ msg, train_resume fs args model = Raise (RuntimeError msg).
Proof.
  intros Hms Hpath Hfile Hkeys (k & Hk & Hne).
  unfold train_resume, Py.getitem. rewrite Hms. simpl.
  rewrite bool_decide_eq_false_2 by done. simpl. rewrite Hfile. simpl.
  unfold torch.load_state_dict. rewrite decide_False; [by eexists|].
  rewrite <- Hkeys. apply strip_module_prefix_changes_keys.
  exists k. split; [|done]. rewrite <- Hkeys in Hk.
  by apply elem_of_list_to_set in Hk.
Qed.

Lemma train_resume_rejects_own_names_witness :
  ∃ msg,
    train_resume
      {| dirs := ∅;
         files := {[ "/out/model_state_3.pt" :=
                       FCheckpoint (save_checkpoint "" Demo.trained 3 150) ]} |}
      (<["model_state" := VStr "/out/model_state_3.pt"]>
         (parser_defaults "train.npy"))
      Demo.network
    = Raise (RuntimeError msg).
Proof.
  apply (train_resume_rejects_own_names _ _ Demo.network
           "/out/model_state_3.pt" (save_checkpoint "" Demo.trained 3 150)).
  - reflexivity.
  - discriminate.
  - reflexivity.
  - vm_compute. reflexivity.
  - exists "weight". split; [|discriminate].
    unfold Demo.network. rewrite dom_singleton_L. by apply elem_of_singleton.
Defined.

(** ** The loop after a resume, and a harness that stalls *)

(** X13: started at a resumed epoch [e0 <= num_epochs], over a harness
    whose every call advances the epoch by one, the loop ends after
    exactly [num_epochs - e0] calls, made at the epochs [e0], ...,
    [num_epochs - 1], with the epoch at [num_epochs]. *)
Theorem train_loop_resumed `{Collaborators} (args : gmap string Py.value)
    (N e0 : Z) (h : harness) (global_step : Z) :
  args !! "num_epochs" = Some (VInt N) →
  advances_epoch →
  e0 ≤ N →
  ∃ t, (∀ fuel, (Z.to_nat (N - e0) ≤ fuel)%nat →
          train_loop fuel args h e0 global_step [] = Some (Ok t))
       ∧ out_epoch t = N
       ∧ length (out_calls t) = Z.to_nat (N - e0)
       ∧ (out_calls t).*1 = seqZ e0 (N - e0).
Proof.
  intros Hnum Hadv Hle.
  destruct (train_loop_runs args N Hnum (Z.to_nat (N - e0)) h e0 global_step
              [] Hadv) as (t & Hrun & _ & Hepoch & Hlen & Hcalls); [lia|].
  exists t. rewrite Z2Nat.id in Hcalls by lia.
  split; [exact Hrun|]. split; [exact Hepoch|]. split; [exact Hlen|done].
Qed.

Lemma train_loop_resumed_witness :
  ∃ t, @train_loop Demo.collaborators 2
         (<["num_epochs" := VInt 5]> (parser_defaults "train.npy"))
         Demo.config 3 150 [] = Some (Ok t)
       ∧ out_epoch t = 5 ∧ (out_calls t).*1 = [3; 4].
Proof.
  destruct (@train_loop_resumed Demo.collaborators
              (<["num_epochs" := VInt 5]> (parser_defaults "train.npy")) 5 3
              Demo.config 150) as (t & Hrun & Hepoch & _ & Hcalls).
  - reflexivity.
  - intros h e g. eexists _, _. reflexivity.
  - lia.
  - exists t. split; [apply (Hrun 2%nat); simpl; lia|].
    split; [exact Hepoch|exact Hcalls].
Defined.

(** X14: the loop ends only through the epoch the harness returns: over
    a harness that keeps returning an epoch below [num_epochs], a loop
    started below [num_epochs] never ends, however many iterations it is
    given. *)
Theorem train_loop_stalls `{Collaborators} (args : gmap string Py.value)
    (N : Z) :
  args !! "num_epochs" = Some (VInt N) →
  (∀ h epoch global_step, epoch < N →
     ∃ h' epoch' global_step',
       train_epochs h epoch global_step = Ok (h', (epoch', global_step'))
       ∧ epoch' < N) →
  ∀ fuel h epoch global_step calls,
    epoch < N → train_loop fuel args h epoch global_step calls = None.
Proof.
  intros Hnum Hstall fuel.
  induction fuel as [|fuel IH]; intros h epoch global_step calls Hlt.
  - by apply (train_loop_starved args N Hnum).
  - rewrite (train_loop_iterate args N Hnum) by done.
    destruct (Hstall h epoch global_step Hlt) as (h' & e' & g' & -> & Hlt').
    by apply IH.
Qed.

Lemma train_loop_stalls_witness :
  @train_loop stalled 1000
    (<["num_epochs" := VInt 3]> (parser_defaults "train.npy"))
    Demo.config 0 0 [] = None.
Proof.
  apply (@train_loop_stalls stalled
           (<["num_epochs" := VInt 3]> (parser_defaults "train.npy")) 3).
  - reflexivity.
  - intros h e g Hlt. exists h, e, (g + 1). split; [reflexivity|exact Hlt].
  - lia.
Defined.

(** ** What [train] sets up *)

Lemma getitem_ok {V} (d : gmap string V) (k : string) (v : V) :
  Py.getitem d k = Ok v → d !! k = Some v.
Proof. unfold Py.getitem. destruct (d !! k); [|done]. by intros [= ->]. Qed.

(** X15: when the setup of [train] succeeds, the harness is constructed
    on a configuration in which the model is wrapped exactly in a
    distributed run, the optimizer is the one the scheduler drives, the
    scheduler has taken its first step, the batch size is the
    participant's, and the metric writers exist exactly for the leader:
    on the output directory and on its [/eval/] subdirectory. *)
Theorem train_setup_harness `{Collaborators} (fs : filesystem)
    (node_feature_mapping edge_feature_mapping : option feature_mapping)
    (dataloader_train : dataloader) (args : gmap string Py.value)
    (output_dir : option string) (dataloader_eval : option dataloader)
    (batches_per_epoch : option Z)
    (dist_config : option DistributedTrainingInfo)
    (h : harness) (epoch global_step : Z) :
  train_setup fs node_feature_mapping edge_feature_mapping dataloader_train
              args output_dir dataloader_eval batches_per_epoch dist_config
  = Ok (h, epoch, global_step) →
  ∃ cfg total,
    h = GraphModelHarness cfg dataloader_train dataloader_eval
    ∧ hc_wrapped cfg = bool_decide (is_Some dist_config)
    ∧ hc_opt cfg = torch.sched_opt (hc_scheduler cfg)
    ∧ torch.last_epoch (hc_scheduler cfg) = 0
    ∧ args !! "batch_size" = Some total
    ∧ train_batch_size total dist_config = Ok (hc_batch_size cfg)
    ∧ (if distributed_utils.is_leader dist_config then
         ∃ d, output_dir = Some d
              ∧ hc_tb_writer_main cfg = Some d
              ∧ hc_tb_writer_eval cfg = Some (d +:+ "/eval/")
       else hc_tb_writer_main cfg = None ∧ hc_tb_writer_eval cfg = None).
Proof.
  unfold train_setup. intros Hsetup.
  destruct (make_model_with_arguments _ _) as [model|e]; simpl in Hsetup;
    [|done].
  destruct (train_resume _ _ _) as [[[model' epoch0] global_step0]|e];
    simpl in Hsetup; [|done].
  destruct (Py.getitem args "batch_size") as [total|e] eqn:Htotal;
    simpl in Hsetup; [|done].
  apply getitem_ok in Htotal.
  destruct (train_batch_size total dist_config) as [batch_size|e] eqn:Hbatch;
    simpl in Hsetup; [|done].
  destruct (train_optimizer args model') as [scheduler|e] eqn:Hopt;
    simpl in Hsetup; [|done].
  assert (Hepoch0 : torch.last_epoch scheduler = 0).
  { unfold train_optimizer in Hopt.
    destruct (Py.getitem args "optimizer") as [name|]; simpl in Hopt; [|done].
    destruct (match name with VStr s => _ | _ => _ end) as [cls|];
      simpl in Hopt; [|done].
    destruct (Py.getitem args "learning_rate") as [lr|]; simpl in Hopt;
      [|done].
    destruct (Py.as_number lr) as [rate|]; simpl in Hopt; [|done].
    destruct (torch.make_optimizer _ _ _) as [opt|]; simpl in Hopt; [|done].
    unfold torch.make_LambdaLR, torch.step in Hopt. simpl in Hopt.
    destruct (_lr_schedule (-1 + 1) 5 (Some [20; 40])); simpl in Hopt; [|done].
    by injection Hopt as <-. }
  destruct (distributed_utils.is_leader dist_config) eqn:Hleader.
  - destruct output_dir as [d|]; simpl in Hsetup; [|done].
    destruct (Py.getitem args "profile"); simpl in Hsetup; [|done].
    destruct (Py.getitem args "hidden_size"); simpl in Hsetup; [|done].
    destruct (Py.getitem args "num_prop_rounds"); simpl in Hsetup; [|done].
    injection Hsetup as <- <- <-. eexists _, total.
    split; [reflexivity|]. simpl. repeat split; try done. by exists d.
  - simpl in Hsetup.
    destruct (Py.getitem args "profile"); simpl in Hsetup; [|done].
    destruct (Py.getitem args "hidden_size"); simpl in Hsetup; [|done].
    destruct (Py.getitem args "num_prop_rounds"); simpl in Hsetup; [|done].
    injection Hsetup as <- <- <-. eexists _, total.
    split; [reflexivity|]. simpl. by repeat split.
Qed.

Lemma train_setup_harness_witness :
  ∃ cfg total,
    hc_wrapped cfg = true
    ∧ hc_opt cfg = torch.sched_opt (hc_scheduler cfg)
    ∧ train_batch_size total (Some (Demo.participant 4 1))
      = Ok (hc_batch_size cfg)
    ∧ hc_tb_writer_main cfg = None ∧ hc_tb_writer_eval cfg = None.
Proof.
  destruct (@train_setup_harness Demo.collaborators Demo.empty_fs None None tt
              (parser_defaults "train.npy") None None (Some 50)
              (Some (Demo.participant 4 1))
              (outcome_harness
                 (@train_setup Demo.collaborators Demo.empty_fs None None tt
                    (parser_defaults "train.npy") None None (Some 50)
                    (Some (Demo.participant 4 1)))) 0 0)
    as (cfg & total & _ & Hwrapped & Hopt & _ & _ & Hbatch & Hwriters).
  - vm_compute. reflexivity.
  - exists cfg, total. split; [exact Hwrapped|]. split; [exact Hopt|].
    split; [exact Hbatch|exact Hwriters].
Defined.

(** X16: a leader without an output directory cannot train: [train]
    called with [output_dir=None], its default, by a leader (a single
    process in particular) raises before its loop, whatever its
    collaborators do. *)
Theorem train_leader_needs_output_dir `{Collaborators} (fuel : nat)
    (fs : filesystem)
    (node_feature_mapping edge_feature_mapping : option feature_mapping)
    (dataloader_train : dataloader) (args : gmap string Py.value)
    (dataloader_eval : option dataloader) (batches_per_epoch : option Z)
    (dist_config : option DistributedTrainingInfo) :
  distributed_utils.is_leader dist_config = true →
  ∃ e, train fuel fs node_feature_mapping edge_feature_mapping
             dataloader_train args None dataloader_eval batches_per_epoch
             dist_config = Some (Raise e).
Proof.
  intros Hleader. unfold train, train_setup.
  destruct (make_model_with_arguments _ _) as [model|e]; simpl; [|eauto].
  destruct (train_resume _ _ _) as [[[model' epoch] global_step]|e]; simpl;
    [|eauto].
  destruct (Py.getitem args "batch_size") as [total|e]; simpl; [|eauto].
  destruct (train_batch_size _ _) as [batch_size|e]; simpl; [|eauto].
  destruct (train_optimizer _ _) as [scheduler|e]; simpl; [|eauto].
  rewrite Hleader. simpl. eauto.
Qed.

Lemma train_leader_needs_output_dir_witness :
  ∃ e, @train Demo.collaborators 5 Demo.empty_fs None None tt
         (parser_defaults "train.npy") None None (Some 50) None
       = Some (Raise e).
Proof.
  apply (@train_leader_needs_output_dir Demo.collaborators 5 Demo.empty_fs
           None None tt (parser_defaults "train.npy") None (Some 50) None).
  reflexivity.
Defined.

(** ** Resolving the paths *)

Lemma path_value_resolved (env : environment) (v : Py.value) :
  path_value (resolved env v) ↔ path_value v.
Proof.
  unfold path_value. destruct v; simpl; split; intros [?|[p ?]]; eauto; done.
Qed.

Lemma resolve_path_key_succeeds (env : environment)
    (args : gmap string Py.value) (key : string) :
  (∃ args', resolve_path_key env args key = Ok args')
  ↔ ∃ v, args !! key = Some v ∧ path_value v.
Proof.
  unfold resolve_path_key, Py.getitem, path_value.
  destruct (args !! key) as [v|]; simpl.
  - destruct v; simpl; split;
      try (intros [? [=]]); try (intros (? & [= <-] & [[=]|[? [=]]]));
      eauto 6.
  - split; [by intros [? [=]]|by intros (? & [=] & _)].
Qed.

Lemma resolve_path_key_dom (env : environment)
    (args args' : gmap string Py.value) (key : string) :
  resolve_path_key env args key = Ok args' → dom args' = dom args.
Proof.
  unfold resolve_path_key, Py.getitem.
  destruct (args !! key) as [v|] eqn:Hv; simpl; [|done].
  destruct v; simpl; intros [= <-]; [done|].
  apply dom_insert_lookup_L. by eexists.
Qed.

Lemma resolve_paths_succeeds (env : environment) (keys : list string)
    (args : gmap string Py.value) :
  (∃ args', resolve_paths env keys args = Ok args')
  ↔ ∀ k, k ∈ keys → ∃ v, args !! k = Some v ∧ path_value v.
Proof.
  revert args. induction keys as [|key keys IH]; intros args; simpl.
  - split; [by intros _ k ?%elem_of_nil|by eexists].
  - destruct (resolve_path_key env args key) as [args1|e] eqn:Hkey; simpl.
    + rewrite IH.
      assert (Hsame : ∀ k, (∃ v, args1 !! k = Some v ∧ path_value v)
                           ↔ ∃ v, args !! k = Some v ∧ path_value v).
      { intros k. rewrite (resolve_path_key_lookup _ _ _ _ k Hkey).
        destruct (decide (k = key)) as [->|]; [|done].
        destruct (args !! key) as [v|]; simpl.
        - split; intros (w & [= <-] & Hw); eexists; (split; [done|]);
            by apply (path_value_resolved env v).
        - split; by intros (? & [=] & _). }
      split.
      * intros Hall k [->|Hk]%elem_of_cons.
        -- apply (proj1 (resolve_path_key_succeeds env args key)). by eexists.
        -- apply Hsame. by apply Hall.
      * intros Hall k Hk. apply Hsame. apply Hall. by apply list_elem_of_further.
    + split; [by intros [? [=]]|]. intros Hall. exfalso.
      assert (∃ args', resolve_path_key env args key = Ok args') as [? Hok].
      { apply (proj2 (resolve_path_key_succeeds env args key)).
        apply Hall. apply list_elem_of_here. }
      congruence.
Qed.

Lemma resolve_paths_keeps_dom (env : environment) (keys : list string)
    (args args' : gmap string Py.value) :
  resolve_paths env keys args = Ok args' → dom args' = dom args.
Proof.
  revert args. induction keys as [|key keys IH]; intros args; simpl.
  - by intros [= <-].
  - destruct (resolve_path_key env args key) as [args1|e] eqn:Hkey; simpl;
      [|done].
    intros Hres. rewrite (IH _ Hres). by eapply resolve_path_key_dom.
Qed.

Lemma resolve_paths_failure (env : environment) (keys : list string)
    (args : gmap string Py.value) (e : Py.exception) :
  resolve_paths env keys args = Raise e →
  e = TypeError ∨ ∃ k, k ∈ keys ∧ args !! k = None ∧ e = KeyError (VStr k).
Proof.
  revert args. induction keys as [|key keys IH]; intros args; simpl; [done|].
  destruct (resolve_path_key env args key) as [args1|e1] eqn:Hkey; simpl.
  - intros [->|(k & Hk & Hnone & ->)]%IH; [by left|right].
    exists k. split; [by apply list_elem_of_further|]. split; [|done].
    rewrite (resolve_path_key_lookup _ _ _ _ k Hkey) in Hnone.
    destruct (decide (k = key)); [|done].
    by destruct (args !! k).
  - intros [= ->]. unfold resolve_path_key, Py.getitem in Hkey.
    destruct (args !! key) as [v|] eqn:Hv; simpl in Hkey.
    + left. destruct v; first [discriminate Hkey|by injection Hkey].
    + right. exists key. split; [apply list_elem_of_here|].
      split; [done|congruence].
Qed.

(** X17: the path loop of [run] succeeds exactly when each of the five
    path options is present and holds [None] or a string; when it fails
    it is with [TypeError] or with the [KeyError] of a path option that is
    missing; and when it succeeds it has neither added nor removed an
    option. *)
Theorem resolve_paths_succeeds_iff (env : environment)
    (args : gmap string Py.value) :
  ((∃ args', resolve_paths env _ARGS_PATH_KEYS args = Ok args')
   ↔ ∀ k, k ∈ _ARGS_PATH_KEYS → ∃ v, args !! k = Some v ∧ path_value v)
  ∧ (∀ e, resolve_paths env _ARGS_PATH_KEYS args = Raise e →
          e = TypeError
          ∨ ∃ k, k ∈ _ARGS_PATH_KEYS ∧ args !! k = None
                 ∧ e = KeyError (VStr k))
  ∧ ∀ args', resolve_paths env _ARGS_PATH_KEYS args = Ok args' →
             dom args' = dom args.
Proof.
  split; [apply resolve_paths_succeeds|].
  split; [apply resolve_paths_failure|apply resolve_paths_keeps_dom].
Qed.

Lemma isabs_cons (p : string) :
  PosixPath.isabs p = true ↔ ∃ p', p = String "/" p'.
Proof.
  unfold PosixPath.isabs. destruct p as [|c p]; simpl.
  - split; [done|by intros [? ?]].
  - rewrite andb_true_r, bool_decide_eq_true. split.
    + intros <-. by eexists.
    + by intros [? [= -> _]].
Qed.

Lemma join_isabs (a b : string) :
  PosixPath.isabs a = true → PosixPath.isabs (PosixPath.join a b) = true.
Proof.
  intros Ha. unfold PosixPath.join.
  destruct (PosixPath.isabs b) eqn:Hb; [done|].
  apply isabs_cons in Ha as [a' ->].
  rewrite bool_decide_eq_false_2 by done. rewrite orb_false_l.
  destruct (Py.startswith "/" (String.rev (String "/" a')));
    apply isabs_cons; by eexists.
Qed.

Lemma normpath_isabs (p : string) :
  PosixPath.isabs p = true → PosixPath.isabs (PosixPath.normpath p) = true.
Proof.
  intros Hp. pose proof Hp as [p' ->]%isabs_cons.
  unfold PosixPath.normpath.
  rewrite bool_decide_eq_false_2 by done.
  change (Py.startswith "/" (String "/" p')) with true. cbv iota.
  destruct (Py.startswith "//" (String "/" p') && _); cbv zeta iota beta;
    rewrite bool_decide_eq_false_2 by done; apply isabs_cons; by eexists.
Qed.

Lemma abspath_isabs (cwd p : string) :
  PosixPath.isabs cwd = true →
  PosixPath.isabs (PosixPath.abspath cwd p) = true.
Proof.
  intros Hcwd. unfold PosixPath.abspath. apply normpath_isabs.
  destruct (PosixPath.isabs p) eqn:Hp; [done|by apply join_isabs].
Qed.

(** X18: in a process whose working directory is an absolute path, every
    path option that holds a string after the path loop of [run] holds an
    absolute path. *)
Theorem resolve_paths_absolute (env : environment)
    (args args' : gmap string Py.value) (k p : string) :
  PosixPath.isabs (cwd env) = true →
  resolve_paths env _ARGS_PATH_KEYS args = Ok args' →
  k ∈ _ARGS_PATH_KEYS → args' !! k = Some (VStr p) →
  PosixPath.isabs p = true.
Proof.
  intros Hcwd Hres Hk Hp.
  rewrite (resolve_paths_lookup env _ _ _ k ARGS_PATH_KEYS_NoDup Hres) in Hp.
  rewrite decide_True in Hp by done.
  destruct (args !! k) as [v|]; [|done]. simpl in Hp.
  destruct v; try done. simpl in Hp. injection Hp as <-.
  by apply abspath_isabs.
Qed.

Lemma resolve_paths_absolute_witness :
  PosixPath.isabs "/home/user/output" = true.
Proof.
  apply (resolve_paths_absolute Demo.env (parser_defaults "data/train.npy")
           (<["output_dir" := VStr "/home/user/output"]>
              (<["dataset_train" := VStr "/home/user/SketchGraphs/data/train.npy"]>
                 (parser_defaults "data/train.npy")))
           "output_dir" "/home/user/output").
  - reflexivity.
  - reflexivity.
  - apply list_elem_of_here.
  - reflexivity.
Defined.

(** ** What [run] writes *)

Lemma ancestors_last (comps : list string) :
  comps ≠ [] → os.of_components comps ∈ os.ancestors comps.
Proof.
  intros Hne. unfold os.ancestors. apply list_elem_of_fmap.
  exists (length comps). split; [by rewrite firstn_all|].
  apply elem_of_seq. destruct comps; [done|]. simpl. lia.
Qed.

(** X19: up to its call of [train], a run writes nothing unless it is the
    leader's and raises nothing; then it has created the directory
    [<output_dir>/<MMDD>/time_<HHMMSS>], which did not exist before,
    together with the directories on the way to it, and has written one
    file, [args.txt] in that directory, leaving every other file as it
    was.  A run that raises before may have created the directories but
    has written no file. *)
Theorem run_startup_writes `{Collaborators} (env : environment)
    (fs fs' : filesystem) (args args' : gmap string Py.value)
    (distributed_config : option DistributedTrainingInfo)
    (r : result startup) :
  run_startup env fs args distributed_config = (args', fs', r) →
  match r with
  | Ok (output_dir, _) =>
      if distributed_utils.is_leader distributed_config then
        ∃ d, output_dir = Some d
             ∧ os.exists_ fs (os.realpath (cwd env) d) = false
             ∧ os.realpath (cwd env) d ∈ dirs fs'
             ∧ dirs fs'
               = list_to_set (os.ancestors (os.components (cwd env) d))
                 ∪ dirs fs
             ∧ files fs' !! os.realpath (cwd env) (PosixPath.join d "args.txt")
               = Some (FJson args')
             ∧ ∀ path,
                 path ≠ os.realpath (cwd env) (PosixPath.join d "args.txt") →
                 files fs' !! path = files fs !! path
      else output_dir = None ∧ fs' = fs
  | Raise _ => files fs' = files fs ∧ dirs fs ⊆ dirs fs'
  end.
Proof.
  intros Hrun.
  destruct (run_startup_inversion _ _ _ _ _ _ _ Hrun)
    as [(-> & -> & e & ->)|(r_paths & Hpaths & Hrest)]; [done|].
  destruct r_paths as [[]|e]; [|by destruct Hrest as [-> ->]].
  destruct Hrest as [(-> & e & ->)|(r_persist & Hp & Hr)]; [done|].
  apply persist_args_spec in Hp.
  destruct r_persist as [output_dir|e]; [|by subst r].
  destruct Hr as [data ->].
  destruct (distributed_utils.is_leader distributed_config); [|done].
  destruct Hp as (v & root & _ & _ & -> & Hfresh & Hdirs & Hfiles).
  eexists. split; [reflexivity|]. split; [exact Hfresh|].
  split; [|split; [exact Hdirs|split]].
  - rewrite Hdirs. apply elem_of_union_l, elem_of_list_to_set.
    apply ancestors_last. intros Hroot.
    unfold os.exists_, os.realpath in Hfresh. rewrite Hroot in Hfresh.
    by vm_compute in Hfresh.
  - rewrite Hfiles. apply lookup_insert_eq.
  - intros path Hne. rewrite Hfiles. by apply lookup_insert_ne.
Qed.

Lemma run_startup_writes_witness :
  (@run_startup Demo.collaborators Demo.env Demo.empty_fs
     (parser_defaults "/data/train.npy") (Some (Demo.participant 2 1))).1.2
  = Demo.empty_fs
  ∧ dirs (@run_startup Demo.collaborators Demo.env Demo.empty_fs
            (parser_defaults "/data/train.npy") None).1.2
    = list_to_set ["/home"; "/home/user"; "/home/user/output";
                   "/home/user/output/1104";
                   "/home/user/output/1104/time_153400"].
Proof.
  split.
  - pose proof (@run_startup_writes Demo.collaborators Demo.env Demo.empty_fs
        (@run_startup Demo.collaborators Demo.env Demo.empty_fs
           (parser_defaults "/data/train.npy")
           (Some (Demo.participant 2 1))).1.2
        (parser_defaults "/data/train.npy")
        (@run_startup Demo.collaborators Demo.env Demo.empty_fs
           (parser_defaults "/data/train.npy")
           (Some (Demo.participant 2 1))).1.1
        (Some (Demo.participant 2 1))
        (Ok (None, (tt, None, Some 50, None, None)))) as Hw.
    apply Hw. reflexivity.
  - pose proof (@run_startup_writes Demo.collaborators Demo.env Demo.empty_fs
        (@run_startup Demo.collaborators Demo.env Demo.empty_fs
           (parser_defaults "/data/train.npy") None).1.2
        (parser_defaults "/data/train.npy")
        (@run_startup Demo.collaborators Demo.env Demo.empty_fs
           (parser_defaults "/data/train.npy") None).1.1
        None
        (Ok (Some "/home/user/output/1104/time_153400",
             (tt, None, Some 50, None, None)))) as Hw.
    destruct Hw as (d & [= <-] & _ & _ & Hdirs & _); [reflexivity|].
    rewrite Hdirs. reflexivity.
Defined.

(** ** The feature toggles *)

(** X20: once [force_entity_categorical_features] is set, the value of
    [disable_entity_features] makes no difference to the model that is
    built. *)
Theorem force_overrides_disable `{Collaborators}
    (feature_dimensions : gmap string Z) (args : gmap string Py.value)
    (v : Py.value) :
  Py.truthy (Py.get args "force_entity_categorical_features" (VBool false))
  = true →
  make_model_with_arguments feature_dimensions
    (<["disable_entity_features" := v]> args)
  = make_model_with_arguments feature_dimensions args.
Proof.
  intros Hforce. unfold make_model_with_arguments.
  rewrite getitem_insert_ne by done.
  rewrite (get_insert_ne _ _ "force_entity_categorical_features"),
    (get_insert_ne _ _ "disable_edge_features"),
    (get_insert_ne _ _ "disable_readin_entity"),
    (get_insert_ne _ _ "disable_readin_edge") by done.
  by rewrite Hforce, !orb_true_r.
Qed.

Lemma force_overrides_disable_witness :
  @make_model_with_arguments Demo.collaborators ∅
    (<["disable_entity_features" := VBool true]>
       (<["force_entity_categorical_features" := VBool true]>
          (parser_defaults "train.npy")))
  = @make_model_with_arguments Demo.collaborators ∅
      (<["force_entity_categorical_features" := VBool true]>
         (parser_defaults "train.npy")).
Proof.
  apply (@force_overrides_disable Demo.collaborators). reflexivity.
Defined.

(** ** Resuming a finished run *)

(** X21: when the setup of [train] leaves the epoch at or beyond
    [num_epochs], as resuming from the checkpoint of a finished run does,
    [train] returns without a single call of the harness, with the
    counters it resumed. *)
Theorem train_finished_run `{Collaborators} (fuel : nat) (fs : filesystem)
    (node_feature_mapping edge_feature_mapping : option feature_mapping)
    (dataloader_train : dataloader) (args : gmap string Py.value)
    (output_dir : option string) (dataloader_eval : option dataloader)
    (batches_per_epoch : option Z)
    (dist_config : option DistributedTrainingInfo)
    (h : harness) (epoch global_step N : Z) :
  train_setup fs node_feature_mapping edge_feature_mapping dataloader_train
              args output_dir dataloader_eval batches_per_epoch dist_config
  = Ok (h, epoch, global_step) →
  args !! "num_epochs" = Some (VInt N) →
  N ≤ epoch →
  train fuel fs node_feature_mapping edge_feature_mapping dataloader_train
        args output_dir dataloader_eval batches_per_epoch dist_config
  = Some (Ok {| out_harness := h; out_epoch := epoch;
                out_global_step := global_step; out_calls := [] |}).
Proof.
  intros Hsetup Hnum Hle. unfold train. rewrite Hsetup.
  by apply (train_loop_exit args N Hnum).
Qed.

Lemma train_finished_run_witness :
  ∃ h, @train Demo.collaborators 0 Demo.checkpoint_fs None None tt
         (<["model_state" := VStr "/out/model_state_3.pt"]>
            (<["num_epochs" := VInt 3]> (parser_defaults "train.npy")))
         (Some "/out") None (Some 50) None
       = Some (Ok {| out_harness := h; out_epoch := 3;
                     out_global_step := 150; out_calls := [] |}).
Proof.
  eexists.
  apply (@train_finished_run Demo.collaborators 0 Demo.checkpoint_fs None None
           tt
           (<["model_state" := VStr "/out/model_state_3.pt"]>
              (<["num_epochs" := VInt 3]> (parser_defaults "train.npy")))
           (Some "/out") None (Some 50) None
           (outcome_harness
              (@train_setup Demo.collaborators Demo.checkpoint_fs None None tt
                 (<["model_state" := VStr "/out/model_state_3.pt"]>
                    (<["num_epochs" := VInt 3]> (parser_defaults "train.npy")))
                 (Some "/out") None (Some 50) None))
           3 150 3).
  - vm_compute. reflexivity.
  - reflexivity.
  - lia.
Defined.
